(** * Financial dashboard (Ambuja Cements vs UltraTech Cement)

    A shallow embedding of [dashboard.py]: the hand-entered metric tables,
    the tidy data frame built from them, the catalogs, the helper
    [kpi_latest] and the two Dash callbacks [update_kpis_and_insights] and
    [update_charts], followed by the properties of the projections.

    Conventions of the embedding.
    - A Python float is an exact rational kept in lowest terms, or NaN.
      All literals of the program have two decimals, so the decimal
      formatting and rounding used by the program are exact on them.
    - The pandas operations the program calls (frame construction, boolean
      mask selection, [sort_values], [pivot_table], [round], [to_csv]) and
      the plotly and html constructors are modelled by their documented
      behaviour on the frames this program builds.
    - The module globals are an explicit store threaded through the
      callbacks; a callback may raise. *)

From Stdlib Require Import List String Ascii ZArith QArith Qround Lia DecimalString Sorted.
From stdpp Require Import base option list gmap strings.
Import ListNotations.

Local Open Scope string_scope.
Local Open Scope Z_scope.

(** ** Python values *)

(** A float: finite (an exact rational, reduced) or NaN. *)
Inductive float : Type :=
| Fin (q : Q)
| NaN.

(** The objects a cell of the source tables, or a value handed to an
    f-string, can be: a float or [None]. *)
Inductive pyobj : Type :=
| PyFloat (x : float)
| PyNone.

(** A float literal of the source, e.g. [lit 1.62]. *)
Definition lit (q : Q) : pyobj := PyFloat (Fin (Qred q)).

Definition is_nan (x : float) : bool :=
  match x with NaN => true | Fin _ => false end.

(** Rounding of an exact value to the nearest integer, ties to even (the
    rule of Python's float formatting and of numpy's [round]). *)
Definition round_half_even (q : Q) : Z :=
  let fl := Qfloor q in
  match Qcompare (q - inject_Z fl) (1 # 2) with
  | Lt => fl
  | Gt => fl + 1
  | Eq => if Z.even fl then fl else fl + 1
  end.

Definition digits (n : Z) : string :=
  NilZero.string_of_uint (N.to_uint (Z.to_N n)).

(** [s.zfill(width)]. *)
Definition zero_pad (width : nat) (s : string) : string :=
  Nat.iter (width - String.length s) (String "0"%char) s.

(** [f"{v:.2f}"] for a float [v]. *)
Definition format_2f (x : float) : string :=
  match x with
  | NaN => "nan"
  | Fin q =>
      let n := Z.abs (round_half_even (q * 100)) in
      (if Qlt_le_dec q 0 then "-" else "")
        ++ digits (n / 100) ++ "." ++ zero_pad 2 (digits (n mod 100))
  end.

(** [numpy.round(x, 3)]. *)
Definition round3 (x : float) : float :=
  match x with
  | NaN => NaN
  | Fin q => Fin (Qred (round_half_even (q * 1000) # 1000))
  end.

Fixpoint strip_zeros_rev (s : list ascii) : list ascii :=
  match s with
  | "0"%char :: (_ :: _) as s' => strip_zeros_rev s'
  | _ => s
  end.

Definition strip_trailing_zeros (s : string) : string :=
  string_of_list_ascii (rev (strip_zeros_rev (rev (list_ascii_of_string s)))).

(** [repr] of a float that has at most three decimals (what [to_csv]
    writes after [round(3)]): the shortest decimal, with at least one
    fractional digit; the empty string for NaN ([na_rep]). *)
Definition repr_dec3 (x : float) : string :=
  match x with
  | NaN => ""
  | Fin q =>
      let n := Z.abs (round_half_even (q * 1000)) in
      (if Qlt_le_dec q 0 then "-" else "")
        ++ digits (n / 1000) ++ "."
        ++ strip_trailing_zeros (zero_pad 3 (digits (n mod 1000)))
  end.

(** [str.title()] on ASCII text: a letter is upper-cased when the
    previous character is not a letter and lower-cased otherwise. *)
Definition is_upper (c : ascii) : bool :=
  let n := nat_of_ascii c in (Nat.leb 65 n && Nat.leb n 90)%bool.
Definition is_lower (c : ascii) : bool :=
  let n := nat_of_ascii c in (Nat.leb 97 n && Nat.leb n 122)%bool.
Definition to_upper (c : ascii) : ascii :=
  if is_lower c then ascii_of_nat (nat_of_ascii c - 32) else c.
Definition to_lower (c : ascii) : ascii :=
  if is_upper c then ascii_of_nat (nat_of_ascii c + 32) else c.

Fixpoint title_from (prev_cased : bool) (s : string) : string :=
  match s with
  | EmptyString => EmptyString
  | String c s' =>
      if (is_upper c || is_lower c)%bool
      then String (if prev_cased then to_lower c else to_upper c)
                  (title_from true s')
      else String c (title_from false s')
  end.

Definition title (s : string) : string := title_from false s.

(** ** The source tables *)

Definition years : list string :=
  ["Mar-21"; "Mar-22"; "Mar-23"; "Mar-24"; "Mar-25"].
Definition year_numbers : list Z := [2021; 2022; 2023; 2024; 2025].

(** The company tables are Python dicts that are only iterated with
    [.items()]: insertion order matters, so they are association lists. *)
Definition ambuja : list (string * list pyobj) :=
  [ ("Current Ratio", [lit 1.62; lit 1.42; lit 1.96; lit 2.03; lit 1.55]);
    ("Quick Ratio", [lit 1.41; lit 1.22; lit 1.72; lit 1.79; lit 1.30]);
    ("Gross Profit Margin", [lit 17.46; lit 8.35; lit 8.93; lit 14.40; lit 9.96]);
    ("Net Profit Margin", [lit 9.59; lit 6.25; lit 6.63; lit 10.78; lit 11.89]);
    ("Interest Coverage Ratio", [lit 37.14; lit 19.33; lit 21.63; lit 21.50; lit 28.46]);
    ("Inventory Turnover", [lit 10.58; lit 9.26; lit 11.90; lit 9.19; lit 8.25]);
    ("Asset Turnover", [lit 0.94; lit 0.95; lit 1.09; lit 0.74; lit 0.61]);
    ("Trade Receivable Turnover", [lit 48.00; lit 36.51; lit 43.26; lit 28.01; lit 25.00]) ].

Definition ultratech : list (string * list pyobj) :=
  [ ("Current Ratio", [lit 0.37; lit 0.39; lit 0.42; lit 0.43; lit 0.44]);
    ("Quick Ratio", [lit 0.20; lit 0.14; lit 0.17; lit 0.15; lit 0.17]);
    ("Gross Profit Margin", [lit 56.22; lit 50.97; lit 45.01; lit 48.87; lit 49.03]);
    ("Net Profit Margin", [lit 12.30; lit 13.69; lit 7.86; lit 9.97; lit 8.47]);
    ("Interest Coverage Ratio", [lit 7.31; lit 11.37; lit 10.62; lit 11.71; lit 6.67]);
    ("Inventory Turnover", [PyNone; lit 5.59; lit 6.00; lit 4.97; lit 4.41]);
    ("Asset Turnover", [PyNone; lit 0.86; lit 1.01; lit 1.07; lit 0.92]);
    ("Trade Receivable Turnover", [PyNone; lit 2.54; lit 2.58; lit 2.55; lit 2.28]) ].

(** ** The tidy data frame *)

(** One dict appended to [rows]. *)
Record RawRow : Type := mkRawRow {
  raw_Company : string;
  raw_Metric : string;
  raw_Value : pyobj;
  raw_YearLabel : string;
  raw_Year : Z
}.

(** One row of a frame. The [Value] column is a float column. *)
Record Row : Type := mkRow {
  Company : string;
  Metric : string;
  Value : float;
  YearLabel : string;
  Year : Z
}.

Definition DataFrame : Type := list Row.

(** The inner loops [for k, v in table.items(): rows.append(...)]; the
    subscripts [v[i]] and [year_numbers[i]] raise when out of range, which
    is [None] here. *)
Definition company_rows (company : string) (table : list (string * list pyobj))
    (i : nat) (y : string) : option (list RawRow) :=
  mapM (fun kv : string * list pyobj =>
          val ← snd kv !! i;
          yn ← year_numbers !! i;
          Some (mkRawRow company (fst kv) val y yn)) table.

(** [rows], after the loop over [enumerate(years)]. *)
Definition rows : option (list RawRow) :=
  @List.concat RawRow <$>
    mapM (fun iy : nat * string =>
            a ← company_rows "Ambuja Cements" ambuja (fst iy) (snd iy);
            u ← company_rows "UltraTech Cement" ultratech (fst iy) (snd iy);
            Some (a ++ u)%list)
         (imap pair years).

(** [pd.DataFrame(rows)]: a column that holds only floats and [None]
    becomes a float column, and each [None] in it becomes NaN. *)
Definition to_float_column (v : pyobj) : float :=
  match v with
  | PyFloat x => x
  | PyNone => NaN
  end.

Definition pd_DataFrame (rs : list RawRow) : DataFrame :=
  List.map (fun r => mkRow (raw_Company r) (raw_Metric r)
                           (to_float_column (raw_Value r))
                           (raw_YearLabel r) (raw_Year r)) rs.

Definition df : DataFrame := pd_DataFrame (default [] rows).

(** ** The pandas operations used by the program *)

(** [d[mask]]: the rows whose mask bit is set, in frame order. *)
Definition select (mask : Row -> bool) (d : DataFrame) : DataFrame :=
  List.filter mask d.

(** [column.isin(values)]. *)
Definition isin (x : string) (values : list string) : bool :=
  existsb (String.eqb x) values.

(** [d.sort_values('Year')], ascending. Rows with equal [Year] keep their
    frame order here (pandas does not promise an order for them); the
    frames the program sorts hold one company and one metric, hence no
    two rows of the same year. *)
Fixpoint insert_by_Year (r : Row) (d : DataFrame) : DataFrame :=
  match d with
  | [] => [r]
  | r' :: d' =>
      if Year r <=? Year r' then r :: d else r' :: insert_by_Year r d'
  end.

Definition sort_values_Year (d : DataFrame) : DataFrame :=
  fold_right insert_by_Year [] d.

(** [d['Value'].iloc[-1]]; the program reaches it on non-empty frames
    only (on an empty one pandas raises, and this is NaN). *)
Definition iloc_last (d : DataFrame) : float :=
  List.last (List.map Value d) NaN.

(** Ordered keys without repetition (the levels of an index). *)
Section SortUniq.
Context {K : Type} (cmp : K -> K -> comparison).

Fixpoint insert_uniq (k : K) (l : list K) : list K :=
  match l with
  | [] => [k]
  | k' :: l' =>
      match cmp k k' with
      | Lt => k :: l
      | Eq => l
      | Gt => k' :: insert_uniq k l'
      end
  end.

Definition sort_uniq (l : list K) : list K := fold_right insert_uniq [] l.
End SortUniq.

Definition lex_compare {A B : Type} (ca : A -> A -> comparison)
    (cb : B -> B -> comparison) (x y : A * B) : comparison :=
  match ca (fst x) (fst y) with
  | Eq => cb (snd x) (snd y)
  | c => c
  end.

(** A column label of the pivot: (Company, Metric). *)
Definition ColKey : Type := (string * string)%type.
(** A group of the pivot: (YearLabel, (Company, Metric)). *)
Definition GroupKey : Type := (string * ColKey)%type.

Definition col_compare : ColKey -> ColKey -> comparison :=
  lex_compare String.compare String.compare.
Definition group_compare : GroupKey -> GroupKey -> comparison :=
  lex_compare String.compare col_compare.

Definition group_key (r : Row) : GroupKey :=
  (YearLabel r, (Company r, Metric r)).

Definition group_eqb (k k' : GroupKey) : bool :=
  match group_compare k k' with Eq => true | _ => false end.

(** The mean of a group, NaN cells skipped; NaN when nothing is left. *)
Definition finite_values (vs : list float) : list Q :=
  flat_map (fun v => match v with Fin q => [q] | NaN => [] end) vs.

Definition mean (vs : list float) : float :=
  match finite_values vs with
  | [] => NaN
  | qs => Fin (Qred (fold_right Qplus 0%Q qs / inject_Z (Z.of_nat (List.length qs))))
  end.

Definition groupby_mean (d : DataFrame) : list (GroupKey * float) :=
  List.map (fun k => (k, mean (List.map Value
                                 (select (fun r => group_eqb (group_key r) k) d))))
           (sort_uniq group_compare (List.map group_key d)).

(** [agged.dropna(how='all')] on the single aggregated column. *)
Definition dropna_groups (g : list (GroupKey * float)) : list (GroupKey * float) :=
  List.filter (fun kv => negb (is_nan (snd kv))) g.

(** A pivoted frame, column by column: the row labels, and for each column
    its label and its cells (one per row label). *)
Record Table : Type := mkTable {
  index : list string;
  columns : list (ColKey * list float)
}.

Definition cell (g : list (GroupKey * float)) (y : string) (c : ColKey) : float :=
  match List.find (fun kv => group_eqb (fst kv) (y, c)) g with
  | Some kv => snd kv
  | None => NaN
  end.

(** [agged.unstack(['Company', 'Metric'])]: rows are the year labels that
    occur, columns the (Company, Metric) pairs that occur, both sorted;
    a cell without a group is NaN. *)
Definition unstack (g : list (GroupKey * float)) : Table :=
  let idx := sort_uniq String.compare (List.map (fun kv => fst (fst kv)) g) in
  let cols := sort_uniq col_compare (List.map (fun kv => snd (fst kv)) g) in
  mkTable idx (List.map (fun c => (c, List.map (fun y => cell g y c) idx)) cols).

(** [table.dropna(how='all', axis=1)]. *)
Definition dropna_columns (t : Table) : Table :=
  mkTable (index t)
          (List.filter (fun col => existsb (fun v => negb (is_nan v)) (snd col))
                       (columns t)).

(** [d.pivot_table(index='YearLabel', columns=['Company', 'Metric'],
    values='Value')] with its defaults [aggfunc='mean'], [dropna=True],
    [sort=True]. *)
Definition pivot_table (d : DataFrame) : Table :=
  dropna_columns (unstack (dropna_groups (groupby_mean d))).

(** [table.round(3)]. *)
Definition round_table (t : Table) : Table :=
  mkTable (index t)
          (List.map (fun col => (fst col, List.map round3 (snd col))) (columns t)).

Definition newline : string := String (ascii_of_nat 10) EmptyString.

Definition csv_line (fields : list string) : string :=
  String.concat "," fields ++ newline.

(** [table.to_csv()] of a frame with two column levels and a named index:
    one header line per column level, one line with the index name, then
    one line per row. No field of these frames needs quoting. *)
Definition to_csv (t : Table) : string :=
  csv_line ("Company" :: List.map (fun col => fst (fst col)) (columns t))
  ++ csv_line ("Metric" :: List.map (fun col => snd (fst col)) (columns t))
  ++ csv_line ("YearLabel" :: List.map (fun _ => "") (columns t))
  ++ String.concat ""
       (imap (fun i y =>
                csv_line (y :: List.map (fun col => repr_dec3 (nth i (snd col) NaN))
                                        (columns t)))
             (index t)).

(** ** Figures and html nodes *)

(** [dict(shape="/", fillmode="overlay", fgcolor="white", fgopacity=0.3)]. *)
Record Pattern : Type := mkPattern {
  shape : string;
  fillmode : string;
  fgcolor : string;
  fgopacity : Q
}.

(** The [marker] dict of a bar: the key [color], and [pattern] when set. *)
Record Marker : Type := mkMarker {
  color : string;
  pattern : option Pattern
}.

(** [go.Bar(x=..., y=..., name=..., text=..., textposition=..., marker=...)]. *)
Record Bar : Type := mkBar {
  bar_x : list string;
  bar_y : list float;
  bar_name : string;
  bar_text : list string;
  bar_textposition : string;
  bar_marker : Marker
}.

(** [go.Scatter(x=..., y=..., mode=..., name=..., line=dict(color=...))]. *)
Record Scatter : Type := mkScatter {
  scatter_x : list string;
  scatter_y : list float;
  scatter_mode : string;
  scatter_name : string;
  scatter_line_color : string
}.

Record MainLayout : Type := mkMainLayout {
  barmode : string;
  main_title : string;
  xaxis_title : string;
  yaxis_title : string
}.

Record SparkLayout : Type := mkSparkLayout {
  spark_title : string;
  spark_height : Z
}.

(** The main figure: its traces in the order they were added. *)
Record MainFigure : Type := mkMainFigure {
  main_data : list Bar;
  main_layout : MainLayout
}.

Record SparkFigure : Type := mkSparkFigure {
  spark_data : list Scatter;
  spark_layout : SparkLayout
}.

(** Dash html components, by tag and children; [style] dicts are
    constants of the layout and are left out. *)
#[warnings="-register-all"]
Inductive Html : Type :=
| Div (children : list Html)
| Text (s : string)
| Strong (s : string)
| H4 (s : string)
| Pre (s : string).

(** ** Catalogs *)

(** The catalogs are dicts used through [d[k]] and [d.get(k, default)]
    only. *)
Definition metric_colors : gmap string string :=
  list_to_map
    [ ("Current Ratio", "#1f77b4");
      ("Quick Ratio", "#aec7e8");
      ("Gross Profit Margin", "#2ca02c");
      ("Net Profit Margin", "#98df8a");
      ("Interest Coverage Ratio", "#9467bd");
      ("Inventory Turnover", "#ff7f0e");
      ("Asset Turnover", "#ffbb78");
      ("Trade Receivable Turnover", "#d62728") ].

Definition company_colors : gmap string string :=
  list_to_map
    [ ("Ambuja Cements", "#1f77b4");
      ("UltraTech Cement", "#ff7f0e") ].

Definition insights : gmap string string :=
  list_to_map
    [ ("Current Ratio", "Ambuja’s 1.62 (’21) to 1.55 (’25) shows solid liquidity, peaking at 2.03 (’24), but recent dip hints at tighter operations. UltraTech’s low 0.37–0.44 signals lean liquidity, risking strain but efficient for capital-heavy cement.");
      ("Quick Ratio", "Ambuja’s 1.41–1.30 (’21–’25) reflects strong immediate liquidity, though declining. UltraTech’s 0.20–0.17 shows vulnerability, prioritizing efficiency over cash reserves.");
      ("Gross Profit Margin", "Ambuja’s volatile 17.46% (’21) to 9.96% (’25) suggests cost pressures, recovering to 14.40% (’24). UltraTech’s robust 56.22%–49.03% showcases superior pricing power and scale.");
      ("Net Profit Margin", "Ambuja improves from 6.25% (’22) to 11.89% (’25), signaling better cost control. UltraTech peaks at 13.69% (’22) but falls to 8.47% (’25), indicating moderated profitability.");
      ("Interest Coverage Ratio", "Ambuja’s strong 37.14–28.46 (’21–’25) reflects low debt risk. UltraTech’s 7.31–6.67 suggests higher leverage but manageable coverage.");
      ("Inventory Turnover", "Ambuja’s 10.58–8.25 (’21–’25) shows slowing inventory movement, risking costs. UltraTech’s 5.59–4.41 (’22–’25) indicates even slower turnover, less efficient.");
      ("Asset Turnover", "Ambuja’s 0.94–0.61 (’21–’25) reflects declining asset efficiency. UltraTech’s 0.86–0.92 (’22–’25) is steadier, slightly outperforming in sales generation.");
      ("Trade Receivable Turnover", "Ambuja’s 48.00–25.00 (’21–’25) signals slower collections, risking cash flow. UltraTech’s 2.54–2.28 (’22–’25) is far slower, highlighting credit leniency.") ].

Definition metric_groups : gmap string (list string) :=
  list_to_map
    [ ("liquidity", ["Current Ratio"; "Quick Ratio"]);
      ("profitability", ["Gross Profit Margin"; "Net Profit Margin"]);
      ("turnover", ["Inventory Turnover"; "Asset Turnover"; "Trade Receivable Turnover"]);
      ("leverage", ["Interest Coverage Ratio"]) ].

(** ** The module globals and the callback monad *)

(** The module-level objects a callback can reach. *)
Record Globals : Type := mkGlobals {
  st_df : DataFrame;
  st_metric_groups : gmap string (list string);
  st_metric_colors : gmap string string;
  st_company_colors : gmap string string;
  st_insights : gmap string string
}.

(** The globals once the module is loaded. *)
Definition module_globals : Globals :=
  mkGlobals df metric_groups metric_colors company_colors insights.

Inductive exn : Type :=
| KeyError (key : string)
| IndexError.

Inductive outcome (A : Type) : Type :=
| Return (a : A)
| Raise (e : exn).
Arguments Return {A} a.
Arguments Raise {A} e.

(** A computation over the globals that returns or raises. *)
Definition Py (A : Type) : Type := Globals -> outcome A * Globals.

#[global] Instance py_ret : MRet Py := fun A a G => (Return a, G).

#[global] Instance py_bind : MBind Py := fun A B k m G =>
  match m G with
  | (Return a, G') => k a G'
  | (Raise e, G') => (Raise e, G')
  end.

Definition raise {A : Type} (e : exn) : Py A := fun G => (Raise e, G).

(** Reading a global name. *)
Definition read {A : Type} (global : Globals -> A) : Py A :=
  fun G => (Return (global G), G).

(** [d[k]]. *)
Definition getitem {V : Type} (d : gmap string V) (k : string) : Py V :=
  match d !! k with
  | Some v => mret v
  | None => raise (KeyError k)
  end.

(** [d.get(k, fallback)]. *)
Definition get {V : Type} (d : gmap string V) (k : string) (fallback : V) : V :=
  default fallback (d !! k).

(** [l[0]]. *)
Definition first {A : Type} (l : list A) : Py A :=
  match l with
  | x :: _ => mret x
  | [] => raise IndexError
  end.

(** ** The program's functions *)

(** [kpi_latest(df_local, company, metric)]. *)
Definition kpi_latest (df_local : DataFrame) (company metric : string) : pyobj :=
  let sub := select (fun r => String.eqb (Company r) company
                              && String.eqb (Metric r) metric)%bool df_local in
  match sub with
  | [] => PyNone                        (* sub.empty *)
  | _ :: _ => PyFloat (iloc_last (sort_values_Year sub))
  end.

(** [f"{v:.2f}" if v is not None else "—"]. *)
Definition value_label (v : pyobj) : string :=
  match v with
  | PyNone => "—"
  | PyFloat x => format_2f x
  end.

(** Iterating over a float column yields floats. *)
Definition iter_values (s : DataFrame) : list pyobj :=
  List.map (fun r => PyFloat (Value r)) s.

(** The body of the loop over [metrics] that builds one KPI card. *)
Definition kpi_card (company metric : string) : Py Html :=
  body ←
    (if String.eqb company "Both" then
       d ← read st_df;
       let a_val := kpi_latest d "Ambuja Cements" metric in
       d' ← read st_df;
       let u_val := kpi_latest d' "UltraTech Cement" metric in
       mret (Div [ Div [Text metric];
                   Div [ Div [Div [Text "Ambuja"]; Div [Text (value_label a_val)]];
                         Div [Div [Text "UltraTech"]; Div [Text (value_label u_val)]] ] ])
     else
       d ← read st_df;
       let val := kpi_latest d company metric in
       mret (Div [ Div [Text metric]; Div [Text (value_label val)] ]));
  mret (Div [body]).

Definition insight_entry (metric : string) : Py Html :=
  texts ← read st_insights;
  mret (Div [Strong (metric ++ ": "); Text (get texts metric "No insight available.")]).

(** Callback of the inputs [company-select] and [metric-group]. *)
Definition update_kpis_and_insights (company group : string)
    : Py (list Html * list Html) :=
  groups ← read st_metric_groups;
  let metrics := get groups group [] in
  cards ← mapM (kpi_card company) metrics;
  entries ← mapM insight_entry metrics;
  let insight_children := H4 "Insights for Selected Ratios" :: entries in
  mret (cards, insight_children).

(** The filtered frame [dff]. *)
Definition filtered (metrics : list string) (yr_min yr_max : Z) (d : DataFrame)
    : DataFrame :=
  select (fun r => isin (Metric r) metrics
                   && (yr_min <=? Year r) && (Year r <=? yr_max))%bool d.

Definition both_companies : list string := ["Ambuja Cements"; "UltraTech Cement"].

(** One bar trace of the comparison chart. *)
Definition comparison_bar (dff : DataFrame) (metric comp : string) : Py Bar :=
  let s := sort_values_Year
             (select (fun r => String.eqb (Metric r) metric
                               && String.eqb (Company r) comp)%bool dff) in
  colors ← read st_metric_colors;
  let marker := mkMarker (get colors metric "#000000") None in
  let marker :=
    if String.eqb comp "UltraTech Cement"
    then mkMarker (color marker) (Some (mkPattern "/" "overlay" "white" 0.3))
    else marker in
  mret (mkBar (List.map YearLabel s) (List.map Value s)
              (comp ++ " — " ++ metric)
              (List.map value_label (iter_values s))
              "auto" marker).

(** One bar trace of a single-company chart. *)
Definition company_bar (dff : DataFrame) (company metric : string) : Py Bar :=
  let s := sort_values_Year
             (select (fun r => String.eqb (Company r) company
                               && String.eqb (Metric r) metric)%bool dff) in
  colors ← read st_metric_colors;
  let marker := mkMarker (get colors metric "#000000") None in
  mret (mkBar (List.map YearLabel s) (List.map Value s)
              metric
              (List.map value_label (iter_values s))
              "auto" marker).

(** The section [# Main chart]. *)
Definition main_chart (company group : string) (metrics : list string)
    (dff : DataFrame) : Py MainFigure :=
  if String.eqb company "Both" then
    traces ← mapM (fun metric => mapM (comparison_bar dff metric) both_companies)
                  metrics;
    mret (mkMainFigure (List.concat traces)
            (mkMainLayout "group" "Comparison — grouped by metric & company"
                          "Year" "Value"))
  else
    traces ← mapM (company_bar dff company) metrics;
    mret (mkMainFigure traces
            (mkMainLayout "group" (company ++ " — " ++ title group)
                          "Year" "Value")).

(** One line of the sparkline. *)
Definition spark_line (dff : DataFrame) (primary comp : string) : Py Scatter :=
  let s := sort_values_Year
             (select (fun r => String.eqb (Metric r) primary
                               && String.eqb (Company r) comp)%bool dff) in
  colors ← read st_company_colors;
  mret (mkScatter (List.map YearLabel s) (List.map Value s)
                  "lines+markers" comp (get colors comp "#000000")).

(** The section [# Sparkline (first metric)]. *)
Definition sparkline (company : string) (metrics : list string)
    (dff : DataFrame) : Py SparkFigure :=
  primary ← first metrics;
  traces ←
    (if String.eqb company "Both"
     then mapM (spark_line dff primary) both_companies
     else line ← spark_line dff primary company; mret [line]);
  mret (mkSparkFigure traces (mkSparkLayout ("Trend — " ++ primary) 280)).

(** The section [# Data table (CSV text)]. *)
Definition table_df (dff : DataFrame) : Table := pivot_table dff.

Definition table_text (dff : DataFrame) : string :=
  to_csv (round_table (table_df dff)).

(** Callback of the inputs [company-select], [metric-group] and
    [year-range]; [year_range] is unpacked into its two bounds. *)
Definition update_charts (company group : string) (year_range : Z * Z)
    : Py (MainFigure * SparkFigure * Html) :=
  let '(yr_min, yr_max) := year_range in
  groups ← read st_metric_groups;
  metrics ← getitem groups group;
  d ← read st_df;
  let dff := filtered metrics yr_min yr_max d in
  fig ← main_chart company group metrics dff;
  spark ← sparkline company metrics dff;
  mret (fig, spark, Pre (table_text dff)).

(** The selection of the three controls, and the two callbacks as Dash
    fires them: each receives the inputs it declares. *)
Record SelectionState : Type := mkSelection {
  sel_company : string;
  sel_group : string;
  sel_year_range : Z * Z
}.

Definition kpi_projection (sel : SelectionState) : Py (list Html * list Html) :=
  update_kpis_and_insights (sel_company sel) (sel_group sel).

Definition chart_projection (sel : SelectionState)
    : Py (MainFigure * SparkFigure * Html) :=
  update_charts (sel_company sel) (sel_group sel) (sel_year_range sel).

(** ** Predicates used to state the properties *)

(** [m] returns a value satisfying [P] from the globals [G], and leaves
    them as they were. *)
Definition returns {A : Type} (m : Py A) (G : Globals) (P : A -> Prop) : Prop :=
  exists v, m G = (Return v, G) /\ P v.

(** [m] never changes the globals, whether it returns or raises. *)
Definition readonly {A : Type} (m : Py A) : Prop :=
  forall G, snd (m G) = G.

(** The labels of the series the main chart is to carry: one per metric
    and company when both companies are shown, one per metric otherwise. *)
Definition series_labels (company : string) (metrics : list string) : list string :=
  if String.eqb company "Both"
  then flat_map (fun metric =>
                   List.map (fun comp => comp ++ " — " ++ metric) both_companies)
                metrics
  else metrics.

(** The KPI card of one metric: the latest value of the whole frame [d]
    for the selected company, or for each of the two companies. *)
Definition kpi_card_of (d : DataFrame) (company metric : string) : Html :=
  if String.eqb company "Both"
  then Div [Div [ Div [Text metric];
                  Div [ Div [Div [Text "Ambuja"];
                             Div [Text (value_label
                                          (kpi_latest d "Ambuja Cements" metric))]];
                        Div [Div [Text "UltraTech"];
                             Div [Text (value_label
                                          (kpi_latest d "UltraTech Cement" metric))]] ] ]]
  else Div [Div [ Div [Text metric];
                  Div [Text (value_label (kpi_latest d company metric))] ]].

(** The value a callback returned, if it returned. *)
Definition returned {A : Type} (out : outcome A * Globals) : option A :=
  match fst out with
  | Return v => Some v
  | Raise _ => None
  end.

(** The bar series of the main chart that [update_charts] returned. *)
Definition chart_series (out : outcome (MainFigure * SparkFigure * Html) * Globals)
    : option (list Bar) :=
  option_map (fun v => main_data (fst (fst v))) (returned out).

(** The cell of a pivoted frame at a row label and a column label. *)
Definition table_cell (t : Table) (y : string) (c : ColKey) : option float :=
  i ← List.find (fun i => String.eqb (nth i (index t) "") y)
                (seq 0 (List.length (index t)));
  col ← List.find (fun col => match col_compare (fst col) c with
                              | Eq => true
                              | _ => false
                              end) (columns t);
  nth_error (snd col) i.

(** The clamping of a year bound to the bounds of the dataset that the
    specification describes. The program has no such step. *)
Definition clamp_year (y : Z) : Z := Z.min (Z.max y 2021) 2025.

(** ** The controls of the layout *)

(** One entry of a dropdown's [options]. *)
Record DropdownOption : Type := mkOption {
  opt_label : string;
  opt_value : string
}.

(** [dcc.Dropdown(id=..., options=..., value=..., clearable=...)]. *)
Record Dropdown : Type := mkDropdown {
  dd_id : string;
  dd_options : list DropdownOption;
  dd_value : string;
  dd_clearable : bool
}.

(** [dcc.RangeSlider(id=..., min=..., max=..., value=..., marks=...,
    step=...)]; [step=None] leaves the marks as the only positions. *)
Record RangeSlider : Type := mkRangeSlider {
  rs_id : string;
  rs_min : Z;
  rs_max : Z;
  rs_value : Z * Z;
  rs_marks : gmap Z string;
  rs_step : option Z
}.

(** The builtins [min] and [max] on a list of integers; they raise on an
    empty list, which is [None] here. *)
Definition py_min (l : list Z) : option Z :=
  match l with
  | [] => None
  | x :: l' => Some (fold_left Z.min l' x)
  end.

Definition py_max (l : list Z) : option Z :=
  match l with
  | [] => None
  | x :: l' => Some (fold_left Z.max l' x)
  end.

(** [str(y)] for an integer. *)
Definition py_str (y : Z) : string :=
  (if y <? 0 then "-" else "") ++ digits (Z.abs y).

Definition company_select : Dropdown :=
  mkDropdown "company-select"
    [ mkOption "Ambuja Cements" "Ambuja Cements";
      mkOption "UltraTech Cement" "UltraTech Cement";
      mkOption "Both Companies" "Both" ]
    "Both" false.

Definition metric_group : Dropdown :=
  mkDropdown "metric-group"
    [ mkOption "Liquidity Ratios" "liquidity";
      mkOption "Profitability Ratios" "profitability";
      mkOption "Leverage Ratios" "leverage";
      mkOption "Turnover Ratios" "turnover" ]
    "liquidity" false.

(** The slider [year-range]: [min] and [max] are each evaluated twice,
    and the marks are the dict [{y: str(y) for y in year_numbers}]. *)
Definition year_range : option RangeSlider :=
  lo ← py_min year_numbers;
  hi ← py_max year_numbers;
  lo' ← py_min year_numbers;
  hi' ← py_max year_numbers;
  Some (mkRangeSlider "year-range" lo hi (lo', hi')
          (list_to_map (List.map (fun y => (y, py_str y)) year_numbers))
          None).

(** A selection the three controls can hand to the callbacks: option
    values of the two dropdowns and two marks of the slider. *)
Definition offered (sel : SelectionState) : Prop :=
  In (sel_company sel) (List.map opt_value (dd_options company_select))
  /\ In (sel_group sel) (List.map opt_value (dd_options metric_group))
  /\ exists slider,
       year_range = Some slider
       /\ is_Some (rs_marks slider !! fst (sel_year_range sel))
       /\ is_Some (rs_marks slider !! snd (sel_year_range sel)).

(** ** Further predicates *)

(** The rows behind one series: the records of a company and a metric in
    a frame, by ascending year. *)
Definition series_rows (d : DataFrame) (company metric : string) : DataFrame :=
  sort_values_Year
    (select (fun r => String.eqb (Company r) company
                      && String.eqb (Metric r) metric)%bool d).

(** The (company, metric) pairs of the series of the main chart, in the
    order the traces are added. *)
Definition series_keys (company : string) (metrics : list string)
    : list (string * string) :=
  if String.eqb company "Both"
  then flat_map (fun metric => List.map (fun comp => (comp, metric)) both_companies)
                metrics
  else List.map (fun metric => (company, metric)) metrics.

(** The companies the sparkline draws a line for. *)
Definition shown_companies (company : string) : list string :=
  if String.eqb company "Both" then both_companies else [company].

Definition in_range (yr_min yr_max : Z) (y : Z) : bool :=
  ((yr_min <=? y) && (y <=? yr_max))%bool.

(** The year labels of the dataset whose year lies in a range. *)
Definition labels_in_range (yr_min yr_max : Z) : list string :=
  List.map snd (List.filter (fun p => in_range yr_min yr_max (fst p))
                            (combine year_numbers years)).

(** The hatch pattern of the comparison chart. *)
Definition hatch : Pattern := mkPattern "/" "overlay" "white" 0.3.

(** One entry of the insights section. *)
Definition insight_of (texts : gmap string string) (metric : string) : Html :=
  Div [Strong (metric ++ ": "); Text (get texts metric "No insight available.")].

(** What the bar trace of a (company, metric) pair is, given the filtered
    frame; [comparison] tells whether both companies are shown. *)
Definition bar_is (G : Globals) (dff : DataFrame) (comparison : bool)
    (key : string * string) (bar : Bar) : Prop :=
  let s := series_rows dff (fst key) (snd key) in
  bar_x bar = List.map YearLabel s
  /\ bar_y bar = List.map Value s
  /\ bar_text bar = List.map format_2f (List.map Value s)
  /\ bar_name bar = (if comparison then fst key ++ " — " ++ snd key else snd key)
  /\ bar_textposition bar = "auto"
  /\ bar_marker bar
     = mkMarker (get (st_metric_colors G) (snd key) "#000000")
                (if (comparison && String.eqb (fst key) "UltraTech Cement")%bool
                 then Some hatch else None).

(** What the sparkline trace of a company is, given the filtered frame
    and the primary metric. *)
Definition line_is (G : Globals) (dff : DataFrame) (primary comp : string)
    (line : Scatter) : Prop :=
  let s := series_rows dff comp primary in
  scatter_x line = List.map YearLabel s
  /\ scatter_y line = List.map Value s
  /\ scatter_mode line = "lines+markers"
  /\ scatter_name line = comp
  /\ scatter_line_color line = get (st_company_colors G) comp "#000000".


(** * Properties *)

(** ** The dataset *)

(** Building [rows] raises nowhere, and the frame has its 80 records: two
    companies, eight metrics, five years. *)
Lemma rows_defined :
  option_map (@List.length RawRow) rows = Some 80%nat
  /\ List.length df = 80%nat.
Proof. split; vm_compute; reflexivity. Qed.

(** ** The callback monad *)

Lemma bind_unfold {A B : Type} (m : Py A) (k : A -> Py B) (G : Globals) :
  (m ≫= k) G = match m G with
                | (Return a, G') => k a G'
                | (Raise e, G') => (Raise e, G')
                end.
Proof. reflexivity. Qed.

Lemma returns_ret {A : Type} (a : A) (G : Globals) (P : A -> Prop) :
  P a -> returns (mret a) G P.
Proof. intros Ha. exists a. split; [reflexivity | exact Ha]. Qed.

Lemma returns_read {A : Type} (f : Globals -> A) (G : Globals) (P : A -> Prop) :
  P (f G) -> returns (read f) G P.
Proof. intros Ha. exists (f G). split; [reflexivity | exact Ha]. Qed.

Lemma returns_bind {A B : Type} (m : Py A) (k : A -> Py B) (G : Globals)
    (P : A -> Prop) (Q : B -> Prop) :
  returns m G P -> (forall a, P a -> returns (k a) G Q) ->
  returns (m ≫= k) G Q.
Proof.
  intros (a & Hm & Ha) Hk. destruct (Hk a Ha) as (b & Hb & HQ).
  exists b. split; [| exact HQ]. rewrite bind_unfold, Hm. exact Hb.
Qed.

Lemma returns_weaken {A : Type} (m : Py A) (G : Globals) (P Q : A -> Prop) :
  returns m G P -> (forall a, P a -> Q a) -> returns m G Q.
Proof. intros (a & Hm & Ha) HPQ. exists a. split; [exact Hm | auto]. Qed.

Lemma returns_mapM {A B : Type} (f : A -> Py B) (R : A -> B -> Prop) (l : list A)
    (G : Globals) :
  (forall x, In x l -> returns (f x) G (R x)) ->
  returns (mapM f l) G (Forall2 R l).
Proof.
  induction l as [| x l IH]; intros Hf; cbn [mapM].
  - apply returns_ret. constructor.
  - eapply returns_bind; [apply Hf; left; reflexivity |].
    intros y Hy. eapply returns_bind; [apply IH; intros; apply Hf; right; assumption |].
    intros ys Hys. apply returns_ret. constructor; assumption.
Qed.

Lemma readonly_ret {A : Type} (a : A) : readonly (mret a : Py A).
Proof. intros G. reflexivity. Qed.

Lemma readonly_raise {A : Type} (e : exn) : readonly (raise e : Py A).
Proof. intros G. reflexivity. Qed.

Lemma readonly_read {A : Type} (f : Globals -> A) : readonly (read f).
Proof. intros G. reflexivity. Qed.

Lemma readonly_bind {A B : Type} (m : Py A) (k : A -> Py B) :
  readonly m -> (forall a, readonly (k a)) -> readonly (m ≫= k).
Proof.
  intros Hm Hk G. rewrite bind_unfold. specialize (Hm G).
  destruct (m G) as [[a | e] G']; cbn in Hm; subst G'.
  - apply Hk.
  - reflexivity.
Qed.

Lemma readonly_mapM {A B : Type} (f : A -> Py B) (l : list A) :
  (forall x, readonly (f x)) -> readonly (mapM f l).
Proof.
  intros Hf. induction l as [| x l IH]; cbn [mapM].
  - intros G. reflexivity.
  - apply readonly_bind; [apply Hf |]. intros y.
    apply readonly_bind; [exact IH |]. intros ys G. reflexivity.
Qed.


Lemma readonly_getitem {V : Type} (d : gmap string V) (k : string) :
  readonly (getitem d k).
Proof. unfold getitem. destruct (d !! k); intros G; reflexivity. Qed.

Lemma readonly_first {A : Type} (l : list A) : readonly (first l).
Proof. destruct l; intros G; reflexivity. Qed.

Create HintDb readonly_db.
#[local] Hint Resolve readonly_ret readonly_raise readonly_read readonly_bind
  readonly_mapM readonly_getitem readonly_first : readonly_db.

Ltac readonly_step :=
  repeat first
    [ solve [auto with readonly_db]
    | match goal with |- readonly (if ?c then _ else _) => destruct c end
    | apply readonly_mapM; intros ?
    | apply readonly_bind; [| intros ?] ].

Lemma readonly_kpi_card (company metric : string) :
  readonly (kpi_card company metric).
Proof. unfold kpi_card. readonly_step. Qed.
#[local] Hint Resolve readonly_kpi_card : readonly_db.

Lemma readonly_insight_entry (metric : string) : readonly (insight_entry metric).
Proof. unfold insight_entry. readonly_step. Qed.
#[local] Hint Resolve readonly_insight_entry : readonly_db.

Lemma readonly_update_kpis_and_insights (company group : string) :
  readonly (update_kpis_and_insights company group).
Proof.
  unfold update_kpis_and_insights. readonly_step.
Qed.

Lemma readonly_comparison_bar (dff : DataFrame) (metric comp : string) :
  readonly (comparison_bar dff metric comp).
Proof. unfold comparison_bar. readonly_step. Qed.
#[local] Hint Resolve readonly_comparison_bar : readonly_db.

Lemma readonly_company_bar (dff : DataFrame) (company metric : string) :
  readonly (company_bar dff company metric).
Proof. unfold company_bar. readonly_step. Qed.
#[local] Hint Resolve readonly_company_bar : readonly_db.

Lemma readonly_spark_line (dff : DataFrame) (primary comp : string) :
  readonly (spark_line dff primary comp).
Proof. unfold spark_line. readonly_step. Qed.
#[local] Hint Resolve readonly_spark_line : readonly_db.

Lemma readonly_main_chart (company group : string) (metrics : list string)
    (dff : DataFrame) :
  readonly (main_chart company group metrics dff).
Proof.
  unfold main_chart. readonly_step.
Qed.
#[local] Hint Resolve readonly_main_chart : readonly_db.

Lemma readonly_sparkline (company : string) (metrics : list string)
    (dff : DataFrame) :
  readonly (sparkline company metrics dff).
Proof.
  unfold sparkline. readonly_step.
Qed.
#[local] Hint Resolve readonly_sparkline : readonly_db.

Lemma readonly_update_charts (company group : string) (year_range : Z * Z) :
  readonly (update_charts company group year_range).
Proof.
  unfold update_charts. destruct year_range as [yr_min yr_max]. readonly_step.
Qed.

(** ** The catalog of metric groups *)

Lemma metric_groups_inv (group : string) (metrics : list string) :
  metric_groups !! group = Some metrics ->
  (group = "liquidity" /\ metrics = ["Current Ratio"; "Quick Ratio"])
  \/ (group = "profitability"
      /\ metrics = ["Gross Profit Margin"; "Net Profit Margin"])
  \/ (group = "turnover"
      /\ metrics = ["Inventory Turnover"; "Asset Turnover";
                    "Trade Receivable Turnover"])
  \/ (group = "leverage" /\ metrics = ["Interest Coverage Ratio"]).
Proof.
  unfold metric_groups. intros H. apply elem_of_list_to_map_2 in H.
  repeat (apply elem_of_cons in H as [H | H]);
    [ injection H as -> -> .. | apply elem_of_nil in H; contradiction ]; tauto.
Qed.

Lemma metric_groups_nonempty (group : string) (metrics : list string) :
  metric_groups !! group = Some metrics ->
  exists primary rest, metrics = primary :: rest.
Proof.
  intros H. apply metric_groups_inv in H.
  destruct H as [[_ ->] | [[_ ->] | [[_ ->] | [_ ->]]]]; eauto.
Qed.

(** ** Unknown group keys (C1) *)

Lemma update_charts_unknown_group (company group : string) (year_range : Z * Z)
    (G : Globals) :
  st_metric_groups G !! group = None ->
  update_charts company group year_range G = (Raise (KeyError group), G).
Proof.
  intros H. destruct year_range as [yr_min yr_max]. unfold update_charts.
  rewrite bind_unfold. cbn [read]. rewrite bind_unfold.
  unfold getitem. rewrite H. reflexivity.
Qed.

Lemma update_kpis_unknown_group (company group : string) (G : Globals) :
  st_metric_groups G !! group = None ->
  update_kpis_and_insights company group G
  = (Return ([], [H4 "Insights for Selected Ratios"]), G).
Proof.
  intros H. unfold update_kpis_and_insights.
  rewrite bind_unfold. cbn [read]. unfold get. rewrite H. reflexivity.
Qed.

(** C1, as the specification states it, fails on the KPI callback: for a
    group key outside the catalog it returns, with no card and only the
    heading of the insights. *)
Lemma C1_kpi_unknown_group_returns_empty :
  metric_groups !! "unknown" = None
  /\ fst (update_kpis_and_insights "Both" "unknown" module_globals)
     = Return ([], [H4 "Insights for Selected Ratios"]).
Proof. split; vm_compute; reflexivity. Qed.

(** C1 (amended): for every group key that is not a key of the catalog,
    [update_charts] (chart, sparkline and table) raises [KeyError] on that
    key, for every company and year range, while
    [update_kpis_and_insights] does not raise: it falls back to the empty
    metric list and returns no card and the bare insights heading. *)
Theorem C1_unknown_group (group : string) :
  metric_groups !! group = None ->
  (forall company year_range,
      update_charts company group year_range module_globals
      = (Raise (KeyError group), module_globals))
  /\ (forall company,
         update_kpis_and_insights company group module_globals
         = (Return ([], [H4 "Insights for Selected Ratios"]), module_globals)).
Proof.
  intros H. split; intros.
  - apply update_charts_unknown_group. exact H.
  - apply update_kpis_unknown_group. exact H.
Qed.

Lemma C1_unknown_group_witness :
  metric_groups !! "unknown" = None
  /\ update_charts "Both" "unknown" (2021, 2025) module_globals
     = (Raise (KeyError "unknown"), module_globals).
Proof.
  assert (H : metric_groups !! "unknown" = None) by (vm_compute; reflexivity).
  split; [exact H |].
  exact (proj1 (C1_unknown_group "unknown" H) "Both" (2021, 2025)).
Defined.

(** ** Determinism and absence of side effects (C9) *)

(** C9: for every selection and every state of the globals, a projection
    leaves the globals untouched, so a second invocation with the same
    selection starts from the same globals and yields the same outcome:
    the same KPI cards and insights, the same chart and sparkline traces
    and the same table text. *)
Theorem C9_projection_is_deterministic_and_pure
    (sel : SelectionState) (G : Globals) :
  let first_kpi := kpi_projection sel G in
  let second_kpi := kpi_projection sel (snd first_kpi) in
  let first_chart := chart_projection sel (snd second_kpi) in
  let second_chart := chart_projection sel (snd first_chart) in
  snd first_kpi = G /\ second_kpi = first_kpi
  /\ snd first_chart = G /\ second_chart = first_chart.
Proof.
  intros first_kpi second_kpi first_chart second_chart.
  assert (Hk : snd first_kpi = G)
    by apply (readonly_update_kpis_and_insights (sel_company sel) (sel_group sel)).
  assert (Hk' : second_kpi = first_kpi)
    by (subst second_kpi; rewrite Hk; reflexivity).
  assert (Hc : snd first_chart = G).
  { subst first_chart. rewrite Hk', Hk.
    apply (readonly_update_charts (sel_company sel) (sel_group sel)). }
  repeat split; try assumption.
  subst second_chart. rewrite Hc. subst first_chart.
  rewrite Hk', Hk. reflexivity.
Qed.

(** ** Non-empty groups and the primary metric (C10) *)

Lemma returns_first {A : Type} (x : A) (l : list A) (G : Globals) (P : A -> Prop) :
  P x -> returns (first (x :: l)) G P.
Proof. intros H. exists x. split; [reflexivity | exact H]. Qed.

Lemma returns_spark_line (dff : DataFrame) (primary comp : string) (G : Globals) :
  returns (spark_line dff primary comp) G (fun line => scatter_name line = comp).
Proof.
  unfold spark_line.
  eapply returns_bind; [apply (returns_read _ _ (fun _ => True)); exact I |].
  intros colors _. apply returns_ret. reflexivity.
Qed.

Lemma returns_sparkline (company primary : string) (rest : list string)
    (dff : DataFrame) (G : Globals) :
  returns (sparkline company (primary :: rest) dff) G
    (fun fig =>
       spark_title (spark_layout fig) = "Trend — " ++ primary
       /\ List.map scatter_name (spark_data fig)
          = if String.eqb company "Both" then both_companies else [company]).
Proof.
  unfold sparkline.
  eapply returns_bind;
    [apply (returns_first _ _ _ (fun p => p = primary)); reflexivity |].
  intros p ->.
  eapply returns_bind
    with (P := fun traces =>
                 List.map scatter_name traces
                 = if String.eqb company "Both" then both_companies else [company]).
  - destruct (String.eqb company "Both").
    + eapply returns_weaken;
        [apply (returns_mapM _ (fun comp line => scatter_name line = comp));
         intros; apply returns_spark_line |].
      intros traces Htr. cbn beta.
      unfold both_companies in *.
      inversion Htr as [| ? l1 ? ? H1 Htr1]; subst.
      inversion Htr1 as [| ? l2 ? ? H2 Htr2]; subst.
      inversion Htr2; subst. cbn. congruence.
    + eapply returns_bind; [apply returns_spark_line |].
      intros line Hl. apply returns_ret. cbn. congruence.
  - intros traces Htr. apply returns_ret. split; [reflexivity | exact Htr].
Qed.

(** C10: every group of the catalog maps to a non-empty metric list, so
    [metrics[0]] in the sparkline section is defined for every catalog
    group: the sparkline is built, titled after the first metric of the
    group, whatever the company and the filtered frame are. This includes
    the single-metric group [leverage]. *)
Theorem C10_catalog_groups_have_a_primary_metric :
  map_Forall (fun _ metrics => metrics <> []) metric_groups
  /\ (forall group metrics, metric_groups !! group = Some metrics ->
        exists primary rest,
          metrics = primary :: rest
          /\ forall company dff G,
               first metrics G = (Return primary, G)
               /\ returns (sparkline company metrics dff) G
                    (fun fig => spark_title (spark_layout fig)
                                = "Trend — " ++ primary))
  /\ metric_groups !! "leverage" = Some ["Interest Coverage Ratio"].
Proof.
  split; [| split].
  - intros group metrics H. apply metric_groups_nonempty in H.
    destruct H as (primary & rest & ->). discriminate.
  - intros group metrics H. apply metric_groups_nonempty in H.
    destruct H as (primary & rest & ->). exists primary, rest.
    split; [reflexivity |]. intros company dff G. split; [reflexivity |].
    eapply returns_weaken; [apply returns_sparkline |].
    intros fig [Ht _]. exact Ht.
  - vm_compute. reflexivity.
Qed.

(** ** What the callbacks return *)

Lemma Forall2_map_eq {A B C : Type} (f : B -> C) (g : A -> C)
    (l : list A) (l' : list B) :
  Forall2 (fun x y => f y = g x) l l' -> List.map f l' = List.map g l.
Proof. induction 1 as [| x y l l' Hxy _ IH]; cbn; congruence. Qed.

Lemma Forall2_eq_map {A B : Type} (g : A -> B) (l : list A) (l' : list B) :
  Forall2 (fun x y => y = g x) l l' -> l' = List.map g l.
Proof. induction 1 as [| x y l l' Hxy _ IH]; cbn; congruence. Qed.

Lemma Forall2_concat_map {A B C : Type} (f : B -> C) (g : A -> list C)
    (l : list A) (ls : list (list B)) :
  Forall2 (fun x ys => List.map f ys = g x) l ls ->
  List.map f (List.concat ls) = flat_map g l.
Proof.
  induction 1 as [| x ys l ls Hxy _ IH]; cbn; [reflexivity |].
  rewrite List.map_app. congruence.
Qed.

Lemma returns_kpi_card (company metric : string) (G : Globals) :
  returns (kpi_card company metric) G
          (fun card => card = kpi_card_of (st_df G) company metric).
Proof.
  unfold kpi_card, kpi_card_of. destruct (String.eqb company "Both").
  - exists (kpi_card_of (st_df G) "Both" metric). split; reflexivity.
  - eexists. split; reflexivity.
Qed.

Lemma returns_insight_entry (metric : string) (G : Globals) :
  returns (insight_entry metric) G
          (fun entry =>
             entry = Div [Strong (metric ++ ": ");
                          Text (get (st_insights G) metric "No insight available.")]).
Proof. eexists. split; reflexivity. Qed.

Lemma returns_update_kpis_and_insights (company group : string) (G : Globals) :
  returns (update_kpis_and_insights company group) G
    (fun v =>
       let metrics := get (st_metric_groups G) group [] in
       fst v = List.map (kpi_card_of (st_df G) company) metrics
       /\ List.length (snd v) = S (List.length metrics)).
Proof.
  unfold update_kpis_and_insights.
  eapply returns_bind;
    [apply (returns_read _ _ (fun groups => groups = st_metric_groups G));
     reflexivity |].
  intros groups ->.
  eapply returns_bind;
    [apply (returns_mapM _ (fun metric card =>
                              card = kpi_card_of (st_df G) company metric));
     intros; apply returns_kpi_card |].
  intros cards Hcards. apply Forall2_eq_map in Hcards.
  eapply returns_bind;
    [apply (returns_mapM _ (fun (_ : string) (_ : Html) => True)); intros;
     eapply returns_weaken; [apply returns_insight_entry | auto] |].
  intros entries Hentries. apply returns_ret. cbn [fst snd]. split; [exact Hcards |].
  cbn [List.length]. f_equal. symmetry. eapply Forall2_length. exact Hentries.
Qed.

Lemma returns_comparison_bar (dff : DataFrame) (metric comp : string) (G : Globals) :
  returns (comparison_bar dff metric comp) G
          (fun bar => bar_name bar = comp ++ " — " ++ metric).
Proof. eexists. split; reflexivity. Qed.

Lemma returns_company_bar (dff : DataFrame) (company metric : string) (G : Globals) :
  returns (company_bar dff company metric) G (fun bar => bar_name bar = metric).
Proof. eexists. split; reflexivity. Qed.

Lemma returns_main_chart (company group : string) (metrics : list string)
    (dff : DataFrame) (G : Globals) :
  returns (main_chart company group metrics dff) G
          (fun fig => List.map bar_name (main_data fig)
                      = series_labels company metrics).
Proof.
  unfold main_chart, series_labels. destruct (String.eqb company "Both").
  - eapply returns_bind.
    + apply (returns_mapM _
               (fun metric bars =>
                  List.map bar_name bars
                  = List.map (fun comp => comp ++ " — " ++ metric) both_companies)).
      intros metric _.
      eapply returns_weaken;
        [apply (returns_mapM _ (fun comp bar =>
                                  bar_name bar = comp ++ " — " ++ metric));
         intros; apply returns_comparison_bar |].
      intros bars Hbars. apply Forall2_map_eq in Hbars. exact Hbars.
    + intros traces Htraces. apply returns_ret. cbn [main_data].
      apply Forall2_concat_map in Htraces. exact Htraces.
  - eapply returns_bind.
    + apply (returns_mapM _ (fun metric bar => bar_name bar = metric)).
      intros; apply returns_company_bar.
    + intros traces Htraces. apply returns_ret. cbn [main_data].
      apply Forall2_map_eq in Htraces. rewrite Htraces. apply List.map_id.
Qed.

Lemma returns_update_charts (company group primary : string)
    (rest : list string) (yr_min yr_max : Z) (G : Globals) :
  st_metric_groups G !! group = Some (primary :: rest) ->
  returns (update_charts company group (yr_min, yr_max)) G
    (fun v =>
       List.map bar_name (main_data (fst (fst v)))
       = series_labels company (primary :: rest)
       /\ List.map scatter_name (spark_data (snd (fst v)))
          = (if String.eqb company "Both" then both_companies else [company])
       /\ spark_title (spark_layout (snd (fst v))) = "Trend — " ++ primary
       /\ snd v = Pre (table_text
                         (filtered (primary :: rest) yr_min yr_max (st_df G)))).
Proof.
  intros Hgroup. unfold update_charts.
  eapply returns_bind;
    [apply (returns_read _ _ (fun groups => groups = st_metric_groups G));
     reflexivity |].
  intros groups ->.
  eapply returns_bind with (P := fun metrics => metrics = primary :: rest).
  { unfold getitem. rewrite Hgroup. apply returns_ret. reflexivity. }
  intros metrics ->.
  eapply returns_bind;
    [apply (returns_read _ _ (fun d => d = st_df G)); reflexivity |].
  intros d ->.
  eapply returns_bind; [apply returns_main_chart |].
  intros fig Hfig.
  eapply returns_bind; [apply returns_sparkline |].
  intros spark [Htitle Hnames].
  apply returns_ret. cbn [fst snd]. auto.
Qed.

Lemma update_charts_table (company group : string) (metrics : list string)
    (yr_min yr_max : Z) :
  metric_groups !! group = Some metrics ->
  returns (update_charts company group (yr_min, yr_max)) module_globals
    (fun v => snd v
              = Pre (to_csv (round_table
                               (table_df (filtered metrics yr_min yr_max df))))).
Proof.
  intros Hgroup.
  destruct (metric_groups_nonempty _ _ Hgroup) as (primary & rest & ->).
  eapply returns_weaken; [apply returns_update_charts; exact Hgroup |].
  intros v (_ & _ & _ & Htable). rewrite Htable. reflexivity.
Qed.

(** ** Series of the main chart (C6) *)

(** C6: for every company selection, catalog group and year range the main
    chart carries one bar series per metric of the group and company
    (labelled "company — metric") when the company selection is [Both],
    and one per metric (labelled by the metric) otherwise. With
    company=Both, group=liquidity, yearRange=[2021,2025] that is 4 series,
    and with company='Ambuja Cements' it is 2. *)
Theorem C6_one_series_per_metric_and_company :
  (forall company group metrics year_range,
      metric_groups !! group = Some metrics ->
      returns (update_charts company group year_range) module_globals
        (fun v =>
           List.map bar_name (main_data (fst (fst v)))
           = series_labels company metrics
           /\ List.length (main_data (fst (fst v)))
              = if String.eqb company "Both"
                then (2 * List.length metrics)%nat
                else List.length metrics))
  /\ returns (update_charts "Both" "liquidity" (2021, 2025)) module_globals
       (fun v =>
          List.length (main_data (fst (fst v))) = 4%nat
          /\ List.map bar_name (main_data (fst (fst v)))
             = [ "Ambuja Cements — Current Ratio";
                 "UltraTech Cement — Current Ratio";
                 "Ambuja Cements — Quick Ratio";
                 "UltraTech Cement — Quick Ratio" ])
  /\ returns (update_charts "Ambuja Cements" "liquidity" (2021, 2025))
       module_globals
       (fun v =>
          List.length (main_data (fst (fst v))) = 2%nat
          /\ List.map bar_name (main_data (fst (fst v)))
             = [ "Current Ratio"; "Quick Ratio" ]).
Proof.
  assert (Hgen : forall company group metrics year_range,
             metric_groups !! group = Some metrics ->
             returns (update_charts company group year_range) module_globals
               (fun v => List.map bar_name (main_data (fst (fst v)))
                         = series_labels company metrics)).
  { intros company group metrics [yr_min yr_max] Hgroup.
    destruct (metric_groups_nonempty _ _ Hgroup) as (primary & rest & ->).
    eapply returns_weaken; [apply returns_update_charts; exact Hgroup |].
    intros v (Hnames & _). exact Hnames. }
  split; [| split].
  - intros company group metrics year_range Hgroup.
    eapply returns_weaken; [apply (Hgen _ _ _ _ Hgroup) |].
    intros v Hnames. split; [exact Hnames |].
    rewrite <- (List.length_map bar_name), Hnames. unfold series_labels.
    destruct (String.eqb company "Both"); [| reflexivity].
    clear. induction metrics as [| metric metrics IH]; [reflexivity |].
    cbn [flat_map]. rewrite List.length_app, IH. cbn. lia.
  - eapply returns_weaken;
      [apply (Hgen "Both" "liquidity" ["Current Ratio"; "Quick Ratio"]);
       vm_compute; reflexivity |].
    intros v Hnames. rewrite <- (List.length_map bar_name), Hnames.
    split; reflexivity.
  - eapply returns_weaken;
      [apply (Hgen "Ambuja Cements" "liquidity" ["Current Ratio"; "Quick Ratio"]);
       vm_compute; reflexivity |].
    intros v Hnames. rewrite <- (List.length_map bar_name), Hnames.
    split; reflexivity.
Qed.

(** ** Reachable selections (C7) *)

(** C7: for every selection the controls can produce (one of the three
    company options, a key of the group catalog, 2021 <= min <= max <=
    2025), both callbacks return: neither raises. Single-year ranges and
    the group [turnover], whose first metric has no 2021 value for
    UltraTech, are among them. *)
Theorem C7_reachable_selections_do_not_fail
    (company group : string) (yr_min yr_max : Z) :
  In company ["Ambuja Cements"; "UltraTech Cement"; "Both"] ->
  is_Some (metric_groups !! group) ->
  2021 <= yr_min -> yr_min <= yr_max -> yr_max <= 2025 ->
  (exists v, update_charts company group (yr_min, yr_max) module_globals
             = (Return v, module_globals))
  /\ (exists v, update_kpis_and_insights company group module_globals
                = (Return v, module_globals)).
Proof.
  intros _ [metrics Hgroup] _ _ _. split.
  - destruct (metric_groups_nonempty _ _ Hgroup) as (primary & rest & ->).
    destruct (returns_update_charts company group primary rest yr_min yr_max
                module_globals Hgroup) as (v & Hv & _).
    exists v. exact Hv.
  - destruct (returns_update_kpis_and_insights company group module_globals)
      as (v & Hv & _).
    exists v. exact Hv.
Qed.

Lemma C7_reachable_selections_do_not_fail_witness :
  (exists v, update_charts "UltraTech Cement" "turnover" (2023, 2023) module_globals
             = (Return v, module_globals))
  /\ (exists v, update_kpis_and_insights "UltraTech Cement" "turnover" module_globals
                = (Return v, module_globals)).
Proof.
  apply (C7_reachable_selections_do_not_fail "UltraTech Cement" "turnover" 2023 2023).
  - right; left; reflexivity.
  - exists ["Inventory Turnover"; "Asset Turnover"; "Trade Receivable Turnover"].
    vm_compute. reflexivity.
  - lia.
  - lia.
  - lia.
Defined.

(** ** Year ranges outside the dataset (C8) *)

Lemma df_years_in_bounds (r : Row) : In r df -> 2021 <= Year r <= 2025.
Proof.
  assert (H : forallb (fun r => (2021 <=? Year r) && (Year r <=? 2025))%bool df
              = true) by (vm_compute; reflexivity).
  intros Hr. rewrite forallb_forall in H. specialize (H r Hr).
  apply andb_prop in H as [Hlo Hhi]. lia.
Qed.

Lemma filtered_clamp (metrics : list string) (yr_min yr_max : Z) :
  yr_min <= 2025 -> 2021 <= yr_max ->
  filtered metrics yr_min yr_max df
  = filtered metrics (clamp_year yr_min) (clamp_year yr_max) df.
Proof.
  intros Hmin Hmax. unfold filtered, select. apply List.filter_ext_in.
  intros r Hr. apply df_years_in_bounds in Hr. unfold clamp_year.
  f_equal; [f_equal |].
  - destruct (Z.leb_spec yr_min (Year r)), (Z.leb_spec (Z.min (Z.max yr_min 2021) 2025) (Year r));
      try reflexivity; lia.
  - destruct (Z.leb_spec (Year r) yr_max), (Z.leb_spec (Year r) (Z.min (Z.max yr_max 2021) 2025));
      try reflexivity; lia.
Qed.

Lemma update_charts_depends_on_filtered (company group : string)
    (a b a' b' : Z) :
  (forall metrics, filtered metrics a b df = filtered metrics a' b' df) ->
  update_charts company group (a, b) module_globals
  = update_charts company group (a', b') module_globals.
Proof.
  intros Hsame. unfold update_charts. rewrite !bind_unfold. cbn [read].
  rewrite !bind_unfold. unfold getitem.
  destruct (st_metric_groups module_globals !! group) as [metrics |];
    [| reflexivity].
  cbn [mret py_ret]. rewrite !bind_unfold. cbn [read st_df module_globals].
  rewrite (Hsame metrics). reflexivity.
Qed.

(** C8, as the specification states it, fails: a range that lies wholly
    above the dataset selects no record, while the clamped range
    [2025, 2025] selects the 2025 records, so the projected views differ. *)
Lemma C8_range_above_dataset_is_not_clamped :
  (clamp_year 2026, clamp_year 2030) = (2025, 2025)
  /\ filtered ["Current Ratio"; "Quick Ratio"] 2026 2030 df = []
  /\ List.length (filtered ["Current Ratio"; "Quick Ratio"] 2025 2025 df) = 4%nat
  /\ fst (update_charts "Both" "liquidity" (2026, 2030) module_globals)
     <> fst (update_charts "Both" "liquidity" (clamp_year 2026, clamp_year 2030)
                           module_globals).
Proof.
  split; [reflexivity |]. split; [vm_compute; reflexivity |].
  split; [vm_compute; reflexivity |].
  vm_compute. discriminate.
Qed.

(** C8 (amended): the program has no clamping step; a year range only
    enters through the comparisons [Year >= min] and [Year <= max]. For
    every range that reaches into the dataset bounds (min <= 2025 and
    2021 <= max), in particular one whose lower bound is below 2021 or
    whose upper bound is above 2025, the outcome of [update_charts] equals
    its outcome on the range clamped to [2021, 2025]. *)
Theorem C8_overlapping_range_acts_as_clamped
    (company group : string) (yr_min yr_max : Z) :
  yr_min <= 2025 -> 2021 <= yr_max ->
  update_charts company group (yr_min, yr_max) module_globals
  = update_charts company group (clamp_year yr_min, clamp_year yr_max)
                  module_globals.
Proof.
  intros Hmin Hmax. apply update_charts_depends_on_filtered.
  intros metrics. apply filtered_clamp; assumption.
Qed.

Lemma C8_overlapping_range_acts_as_clamped_witness :
  update_charts "Both" "liquidity" (2019, 2030) module_globals
  = update_charts "Both" "liquidity" (clamp_year 2019, clamp_year 2030)
                  module_globals.
Proof.
  apply (C8_overlapping_range_acts_as_clamped "Both" "liquidity" 2019 2030); lia.
Defined.

(** ** Absent values in the chart (C2) *)

(** C2 at company='UltraTech Cement', group=turnover, yearRange=[2021,2025]:
    the source table holds [None] for Inventory Turnover in 2021, the
    frame holds NaN for it, and the first series of the chart (Inventory
    Turnover) has the five year labels on its axis, NaN (not 0) as its
    2021 value, and the text "nan" as its 2021 label: the test
    [v is not None] never fails on a value read from the float column, so
    the marker "—" is not produced. *)
Theorem C2_absent_value_is_labelled_nan :
  let out := update_charts "UltraTech Cement" "turnover" (2021, 2025)
                           module_globals in
  option_map (List.map raw_Value)
             (List.filter (fun r => String.eqb (raw_Company r) "UltraTech Cement"
                                    && String.eqb (raw_Metric r) "Inventory Turnover"
                                    && (raw_Year r =? 2021))%bool <$> rows)
  = Some [PyNone]
  /\ List.map Value
              (select (fun r => String.eqb (Company r) "UltraTech Cement"
                                && String.eqb (Metric r) "Inventory Turnover"
                                && (Year r =? 2021))%bool df)
     = [NaN]
  /\ option_map (List.map bar_name) (chart_series out)
     = Some ["Inventory Turnover"; "Asset Turnover"; "Trade Receivable Turnover"]
  /\ option_map (fun bars => List.map bar_x (firstn 1 bars)) (chart_series out)
     = Some [["Mar-21"; "Mar-22"; "Mar-23"; "Mar-24"; "Mar-25"]]
  /\ option_map (fun bars => List.map bar_y (firstn 1 bars)) (chart_series out)
     = Some [List.map to_float_column
                      [PyNone; lit 5.59; lit 6.00; lit 4.97; lit 4.41]]
  /\ option_map (fun bars => List.map bar_text (firstn 1 bars)) (chart_series out)
     = Some [["nan"; "5.59"; "6.00"; "4.97"; "4.41"]]
  /\ value_label PyNone = "—"
  /\ value_label (PyFloat NaN) = "nan".
Proof.
  intros out. subst out.
  repeat split; vm_compute; reflexivity.
Qed.

(** ** The leverage table (C5) *)

(** C5: for group=leverage and yearRange=[2021,2025], whatever the company
    selection, the callback returns the CSV text of the pivoted frame
    rounded to 3 decimals; that frame has exactly the five rows Mar-21 ..
    Mar-25 in ascending order (five cells in each column), every cell is a
    value rounded to 3 decimals (rounding the frame again changes nothing),
    and the cell of Ambuja Cements' Interest Coverage Ratio at Mar-21 is
    37.140. *)
Theorem C5_leverage_table (company : string) :
  let t := round_table
             (table_df (filtered ["Interest Coverage Ratio"] 2021 2025 df)) in
  returns (update_charts company "leverage" (2021, 2025)) module_globals
          (fun v => snd v = Pre (to_csv t))
  /\ index t = ["Mar-21"; "Mar-22"; "Mar-23"; "Mar-24"; "Mar-25"]
  /\ List.map (fun col => List.length (snd col)) (columns t) = [5%nat; 5%nat]
  /\ round_table t = t
  /\ table_cell t "Mar-21" ("Ambuja Cements", "Interest Coverage Ratio")
     = Some (Fin (Qred 37.140))
  /\ to_csv t
     = "Company,Ambuja Cements,UltraTech Cement
Metric,Interest Coverage Ratio,Interest Coverage Ratio
YearLabel,,
Mar-21,37.14,7.31
Mar-22,19.33,11.37
Mar-23,21.63,10.62
Mar-24,21.5,11.71
Mar-25,28.46,6.67
".
Proof.
  intros t. subst t. split.
  - apply update_charts_table. vm_compute. reflexivity.
  - repeat split; vm_compute; reflexivity.
Qed.

(** ** The pivoted table (C4) *)

Section SortUniqFacts.
Context {K : Type} (cmp : K -> K -> comparison).
Hypothesis cmp_eq : forall a b, cmp a b = Eq -> a = b.

Lemma In_insert_uniq (k x : K) (l : list K) :
  In x (insert_uniq cmp k l) <-> x = k \/ In x l.
Proof.
  induction l as [| k' l IH]; cbn [insert_uniq].
  - cbn. intuition congruence.
  - destruct (cmp k k') eqn:E.
    + apply cmp_eq in E. subst k'. cbn. intuition congruence.
    + cbn. intuition congruence.
    + cbn [In]. rewrite IH. intuition congruence.
Qed.

Lemma In_sort_uniq (x : K) (l : list K) :
  In x (sort_uniq cmp l) <-> In x l.
Proof.
  induction l as [| k l IH]; cbn [sort_uniq fold_right]; [reflexivity |].
  fold (sort_uniq cmp l). rewrite In_insert_uniq, IH. cbn. intuition congruence.
Qed.
End SortUniqFacts.

Lemma string_compare_refl (x : string) : String.compare x x = Eq.
Proof.
  pose proof (String.compare_antisym x x) as H.
  destruct (String.compare x x); [reflexivity | discriminate H ..].
Qed.

Lemma col_compare_eq (c c' : ColKey) : col_compare c c' = Eq -> c = c'.
Proof.
  destruct c as [a b], c' as [a' b']. unfold col_compare, lex_compare. cbn [fst snd].
  destruct (String.compare a a') eqn:E; try discriminate.
  intros E'. apply String.compare_eq_iff in E, E'. congruence.
Qed.

Lemma group_compare_eq (k k' : GroupKey) : group_compare k k' = Eq -> k = k'.
Proof.
  destruct k as [y c], k' as [y' c']. unfold group_compare, lex_compare. cbn [fst snd].
  destruct (String.compare y y') eqn:E; try discriminate.
  intros E'. apply String.compare_eq_iff in E. apply col_compare_eq in E'.
  congruence.
Qed.

Lemma group_eqb_eq (k k' : GroupKey) : group_eqb k k' = true <-> k = k'.
Proof.
  unfold group_eqb. split.
  - destruct (group_compare k k') eqn:E; try discriminate.
    intros _. apply group_compare_eq. exact E.
  - intros <-. destruct k as [y [c m]].
    unfold group_compare, col_compare, lex_compare. cbn [fst snd].
    rewrite !string_compare_refl. reflexivity.
Qed.

Lemma isin_In (x : string) (values : list string) :
  isin x values = true <-> In x values.
Proof.
  unfold isin. rewrite existsb_exists. split.
  - intros (y & Hy & E). apply String.eqb_eq in E. congruence.
  - intros H. exists x. split; [exact H | apply String.eqb_refl].
Qed.

Lemma finite_values_In (q : Q) (vs : list float) :
  In q (finite_values vs) <-> In (Fin q) vs.
Proof.
  unfold finite_values. rewrite in_flat_map. split.
  - intros ([q' |] & Hv & Hq); cbn in Hq; [| contradiction].
    destruct Hq as [-> | []]. exact Hv.
  - intros H. exists (Fin q). split; [exact H | left; reflexivity].
Qed.

(** The mean of a group is a number exactly when the group holds one. *)
Lemma mean_not_nan (vs : list float) :
  is_nan (mean vs) = false <-> exists v, In v vs /\ is_nan v = false.
Proof.
  unfold mean. destruct (finite_values vs) as [| q qs] eqn:E; cbn [is_nan].
  - split; [discriminate |]. intros ([q |] & Hv & Hq); [| discriminate].
    apply finite_values_In in Hv. rewrite E in Hv. contradiction.
  - split; [| reflexivity]. intros _. exists (Fin q). split; [| reflexivity].
    apply finite_values_In. rewrite E. left. reflexivity.
Qed.

Lemma In_groupby_mean (k : GroupKey) (v : float) (d : DataFrame) :
  In (k, v) (groupby_mean d)
  <-> In k (List.map group_key d)
      /\ v = mean (List.map Value
                            (select (fun r => group_eqb (group_key r) k) d)).
Proof.
  unfold groupby_mean. rewrite in_map_iff. split.
  - intros (k' & E & Hk'). injection E as E1 E2. subst k' v.
    apply (proj1 (In_sort_uniq _ group_compare_eq _ _)) in Hk'. split; [exact Hk' | reflexivity].
  - intros [Hk ->]. exists k. split; [reflexivity |].
    apply (proj2 (In_sort_uniq _ group_compare_eq _ _)). exact Hk.
Qed.

(** The groups that survive [dropna]: the keys under which the frame has
    a value that is not NaN. *)
Lemma dropna_groups_key (k : GroupKey) (d : DataFrame) :
  (exists v, In (k, v) (dropna_groups (groupby_mean d)))
  <-> exists r, In r d /\ group_key r = k /\ is_nan (Value r) = false.
Proof.
  unfold dropna_groups. split.
  - intros (v & Hv). apply filter_In in Hv as [Hv Hnan]. cbn [snd] in Hnan.
    apply In_groupby_mean in Hv as [_ ->].
    apply negb_true_iff, mean_not_nan in Hnan as (x & Hx & Hxnan).
    apply in_map_iff in Hx as (r & <- & Hr).
    apply filter_In in Hr as [Hr Hkey]. apply group_eqb_eq in Hkey.
    exists r. auto.
  - intros (r & Hr & Hkey & Hnan).
    exists (mean (List.map Value (select (fun r => group_eqb (group_key r) k) d))).
    apply filter_In. split.
    + apply In_groupby_mean. split; [| reflexivity].
      rewrite <- Hkey. apply in_map. exact Hr.
    + cbn [snd]. apply negb_true_iff, mean_not_nan.
      exists (Value r). split; [| exact Hnan].
      apply in_map. apply filter_In. split; [exact Hr |].
      apply group_eqb_eq. exact Hkey.
Qed.

Lemma cell_not_nan (g : list (GroupKey * float)) (y : string) (c : ColKey) :
  (forall kv, In kv g -> is_nan (snd kv) = false) ->
  (exists v, In ((y, c), v) g) ->
  is_nan (cell g y c) = false.
Proof.
  intros Hg (v & Hv). unfold cell.
  destruct (List.find (fun kv => group_eqb (fst kv) (y, c)) g) as [kv |] eqn:E.
  - apply find_some in E as [Hkv _]. apply Hg. exact Hkv.
  - apply find_none with (x := ((y, c), v)) in E; [| exact Hv].
    cbn [fst] in E. rewrite (proj2 (group_eqb_eq (y, c) (y, c)) eq_refl) in E.
    discriminate.
Qed.

(** The columns of the pivot: the (Company, Metric) pairs under which the
    frame has a value that is not NaN. *)
Lemma pivot_table_columns (d : DataFrame) (c : ColKey) :
  In c (List.map fst (columns (pivot_table d)))
  <-> exists r, In r d /\ (Company r, Metric r) = c /\ is_nan (Value r) = false.
Proof.
  unfold pivot_table, dropna_columns, unstack. cbn [columns index].
  set (g := dropna_groups (groupby_mean d)).
  rewrite in_map_iff. split.
  - intros (col & <- & Hcol). apply filter_In in Hcol as [Hcol _].
    apply in_map_iff in Hcol as (c & <- & Hc). cbn [fst].
    apply (proj1 (In_sort_uniq _ col_compare_eq _ _)) in Hc.
    apply in_map_iff in Hc as ([[y c'] v] & E & Hkv). cbn [fst snd] in E. subst c'.
    destruct (proj1 (dropna_groups_key (y, c) d) (ex_intro _ v Hkv))
      as (r & Hr & Hkey & Hnan).
    exists r. unfold group_key in Hkey. injection Hkey as _ Hc.
    auto.
  - intros (r & Hr & Hc & Hnan).
    destruct (proj2 (dropna_groups_key (YearLabel r, c) d)) as (v & Hv).
    { exists r. unfold group_key. rewrite Hc. auto. }
    fold g in Hv.
    eexists. split; [| apply filter_In; split; [apply in_map_iff; exists c; split;
                                                   [reflexivity |] |]].
    + reflexivity.
    + apply (proj2 (In_sort_uniq _ col_compare_eq _ _)). apply in_map_iff.
      exists ((YearLabel r, c), v). auto.
    + cbn [snd]. apply existsb_exists. exists (cell g (YearLabel r) c). split.
      * apply in_map_iff. exists (YearLabel r). split; [reflexivity |].
        apply (proj2 (In_sort_uniq _ String.compare_eq_iff _ _)). apply in_map_iff.
        exists ((YearLabel r, c), v). auto.
      * apply negb_true_iff. apply cell_not_nan; [| exists v; exact Hv].
        intros kv Hkv. unfold g, dropna_groups in Hkv.
        apply filter_In in Hkv as [_ Hkv]. apply negb_true_iff in Hkv. exact Hkv.
Qed.

Lemma round_table_columns (t : Table) :
  List.map fst (columns (round_table t)) = List.map fst (columns t).
Proof. unfold round_table. cbn [columns]. rewrite List.map_map. reflexivity. Qed.

(** C4, as the specification states it, fails: with group=turnover and
    yearRange=[2021,2021] the filtered records hold both companies, but
    the three UltraTech values are absent and the table has only the three
    Ambuja columns. *)
Lemma C4_all_absent_column_is_dropped :
  let metrics := ["Inventory Turnover"; "Asset Turnover";
                  "Trade Receivable Turnover"] in
  let dff := filtered metrics 2021 2021 df in
  metric_groups !! "turnover" = Some metrics
  /\ sort_uniq String.compare (List.map Company dff)
     = ["Ambuja Cements"; "UltraTech Cement"]
  /\ List.map fst (columns (round_table (table_df dff)))
     = [ ("Ambuja Cements", "Asset Turnover");
         ("Ambuja Cements", "Inventory Turnover");
         ("Ambuja Cements", "Trade Receivable Turnover") ].
Proof. repeat split; vm_compute; reflexivity. Qed.

(** C4 (amended): for every company selection, catalog group and year
    range, the table is the CSV text of a pivoted frame whose column set is
    the set of (company, metric) pairs, metric in the selected group, for
    which the dataset has a record in the year range whose value is not
    absent. The column set does not depend on the company selection, and a
    pair whose cells are all absent in the range has no column. *)
Theorem C4_table_columns (company group : string) (metrics : list string)
    (yr_min yr_max : Z) :
  metric_groups !! group = Some metrics ->
  let t := round_table (table_df (filtered metrics yr_min yr_max df)) in
  returns (update_charts company group (yr_min, yr_max)) module_globals
          (fun v => snd v = Pre (to_csv t))
  /\ forall c m,
       In (c, m) (List.map fst (columns t))
       <-> In m metrics
           /\ exists r, In r df /\ Company r = c /\ Metric r = m
                        /\ yr_min <= Year r <= yr_max /\ Value r <> NaN.
Proof.
  intros Hgroup t. subst t. split.
  - apply update_charts_table. exact Hgroup.
  - intros c m. rewrite round_table_columns. unfold table_df.
    rewrite pivot_table_columns. unfold filtered, select. split.
    + intros (r & Hr & Hkey & Hnan). injection Hkey as <- <-.
      apply filter_In in Hr as [Hr Hmask].
      apply andb_prop in Hmask as [Hmask Hhi].
      apply andb_prop in Hmask as [Hin Hlo].
      apply isin_In in Hin. split; [exact Hin |].
      exists r. repeat split; try assumption; try lia.
      intros E. rewrite E in Hnan. discriminate.
    + intros (Hin & r & Hr & <- & <- & Hyear & Hnan).
      exists r. split; [| split; [reflexivity |]].
      * apply filter_In. split; [exact Hr |].
        apply andb_true_intro. split; [apply andb_true_intro; split |].
        -- apply isin_In. exact Hin.
        -- apply Z.leb_le. lia.
        -- apply Z.leb_le. lia.
      * destruct (Value r); [reflexivity | congruence].
Qed.

Lemma C4_table_columns_witness :
  metric_groups !! "turnover"
  = Some ["Inventory Turnover"; "Asset Turnover"; "Trade Receivable Turnover"]
  /\ (In ("UltraTech Cement", "Asset Turnover")
          (List.map fst
             (columns
                (round_table
                   (table_df
                      (filtered ["Inventory Turnover"; "Asset Turnover";
                                 "Trade Receivable Turnover"] 2021 2022 df)))))
      <-> In "Asset Turnover"
             ["Inventory Turnover"; "Asset Turnover"; "Trade Receivable Turnover"]
          /\ exists r, In r df /\ Company r = "UltraTech Cement"
                       /\ Metric r = "Asset Turnover"
                       /\ 2021 <= Year r <= 2022 /\ Value r <> NaN).
Proof.
  assert (H : metric_groups !! "turnover"
              = Some ["Inventory Turnover"; "Asset Turnover";
                      "Trade Receivable Turnover"])
    by (vm_compute; reflexivity).
  split; [exact H |].
  exact (proj2 (C4_table_columns "Both" "turnover" _ 2021 2022 H)
               "UltraTech Cement" "Asset Turnover").
Defined.

(** ** The latest value of a metric (C3) *)

Definition Year_le (r r' : Row) : Prop := Year r <= Year r'.

Lemma In_insert_by_Year (r x : Row) (d : DataFrame) :
  In x (insert_by_Year r d) <-> x = r \/ In x d.
Proof.
  induction d as [| r' d IH]; cbn [insert_by_Year].
  - cbn. intuition congruence.
  - destruct (Year r <=? Year r'); cbn [In]; [| rewrite IH]; intuition congruence.
Qed.

Lemma In_sort_values_Year (x : Row) (d : DataFrame) :
  In x (sort_values_Year d) <-> In x d.
Proof.
  induction d as [| r d IH]; cbn [sort_values_Year fold_right]; [reflexivity |].
  fold (sort_values_Year d). rewrite In_insert_by_Year, IH. cbn. intuition congruence.
Qed.

Lemma insert_by_Year_sorted (r : Row) (d : DataFrame) :
  StronglySorted Year_le d -> StronglySorted Year_le (insert_by_Year r d).
Proof.
  induction 1 as [| r' d Hd IH Hr']; cbn [insert_by_Year].
  - repeat constructor.
  - destruct (Z.leb_spec (Year r) (Year r')) as [Hle | Hgt].
    + constructor; [constructor; assumption |].
      constructor; [exact Hle |].
      rewrite List.Forall_forall in Hr' |- *. intros x Hx.
      specialize (Hr' x Hx). unfold Year_le in *. lia.
    + constructor; [exact IH |].
      rewrite List.Forall_forall in Hr' |- *. intros x Hx.
      apply In_insert_by_Year in Hx as [-> | Hx]; [| auto].
      unfold Year_le. lia.
Qed.

Lemma sort_values_Year_sorted (d : DataFrame) :
  StronglySorted Year_le (sort_values_Year d).
Proof.
  induction d as [| r d IH]; cbn [sort_values_Year fold_right].
  - constructor.
  - apply insert_by_Year_sorted. exact IH.
Qed.

(** In a frame sorted by year, the last row has the greatest year. *)
Lemma sorted_last_is_latest (init : DataFrame) (r x : Row) :
  StronglySorted Year_le (init ++ [r])%list -> In x (init ++ [r])%list -> Year x <= Year r.
Proof.
  induction init as [| r' init IH]; cbn [app]; intros Hs Hx.
  - destruct Hx as [<- | []]. lia.
  - apply StronglySorted_inv in Hs as [Hs Hr'].
    destruct Hx as [<- | Hx]; [| auto].
    rewrite List.Forall_forall in Hr'. apply (Hr' r).
    apply in_or_app. right. left. reflexivity.
Qed.

Lemma iloc_last_snoc (init : DataFrame) (r : Row) :
  iloc_last (init ++ [r])%list = Value r.
Proof. unfold iloc_last. rewrite List.map_app. cbn [List.map]. apply last_last. Qed.

(** [kpi_latest] on any frame: [None] when no record matches, and
    otherwise the value of a matching record of the greatest year. *)
Lemma kpi_latest_spec (df_local : DataFrame) (company metric : string) :
  match kpi_latest df_local company metric with
  | PyNone =>
      forall r, In r df_local -> Company r = company -> Metric r = metric -> False
  | PyFloat v =>
      exists r, In r df_local /\ Company r = company /\ Metric r = metric
                /\ Value r = v
                /\ forall r', In r' df_local -> Company r' = company ->
                              Metric r' = metric -> Year r' <= Year r
  end.
Proof.
  unfold kpi_latest.
  set (mask := fun r => (String.eqb (Company r) company
                         && String.eqb (Metric r) metric)%bool).
  assert (Hmask : forall r, In r (sort_values_Year (select mask df_local))
                            <-> In r df_local /\ Company r = company
                                /\ Metric r = metric).
  { intros r. rewrite In_sort_values_Year. unfold select. rewrite filter_In.
    unfold mask. rewrite andb_true_iff, !String.eqb_eq. tauto. }
  pose proof (sort_values_Year_sorted (select mask df_local)) as Hsorted.
  destruct (select mask df_local) as [| r0 sub] eqn:E.
  - intros r Hr Hc Hm. apply (proj2 (Hmask r)). auto.
  - destruct (exists_last (l := sort_values_Year (r0 :: sub)))
      as (init & r & Hlast).
    { intros Hnil. apply (in_nil (a := r0)). rewrite <- Hnil.
      apply In_sort_values_Year. left. reflexivity. }
    rewrite Hlast in *. rewrite iloc_last_snoc.
    destruct (proj1 (Hmask r)) as (Hr & Hc & Hm).
    { apply in_or_app. right. left. reflexivity. }
    exists r. repeat split; try assumption.
    intros r' Hr' Hc' Hm'. apply (sorted_last_is_latest init); [exact Hsorted |].
    apply Hmask. auto.
Qed.

(** C3: the value [kpi_latest] reads is the value of the record of the
    greatest year among all records of that company and metric in the full
    dataset (the dataset has one record per company, metric and year); the
    KPI cards show exactly these values for every year range, since the
    KPI callback takes the company and the group only; in particular with
    yearRange=[2021,2022] the card of UltraTech Cement's Current Ratio
    shows 0.44, the value of 2025. *)
Theorem C3_kpi_latest_ignores_year_range :
  (forall company metric,
      match kpi_latest df company metric with
      | PyNone =>
          forall r, In r df -> Company r = company -> Metric r = metric -> False
      | PyFloat v =>
          exists r, In r df /\ Company r = company /\ Metric r = metric
                    /\ Value r = v
                    /\ forall r', In r' df -> Company r' = company ->
                                  Metric r' = metric -> Year r' <= Year r
      end)
  /\ NoDup (List.map (fun r => (Company r, Metric r, Year r)) df)
  /\ (forall company group year_range,
         returns (kpi_projection (mkSelection company group year_range))
                 module_globals
                 (fun v => fst v = List.map (kpi_card_of df company)
                                            (get metric_groups group [])))
  /\ kpi_latest df "UltraTech Cement" "Current Ratio" = lit 0.44
  /\ List.map Year
              (select (fun r => String.eqb (Company r) "UltraTech Cement"
                                && String.eqb (Metric r) "Current Ratio"
                                && String.eqb (format_2f (Value r)) "0.44")%bool
                      df)
     = [2025]
  /\ option_map fst
       (returned (kpi_projection
                    (mkSelection "UltraTech Cement" "liquidity" (2021, 2022))
                    module_globals))
     = Some [ Div [Div [Div [Text "Current Ratio"]; Div [Text "0.44"]]];
              Div [Div [Div [Text "Quick Ratio"]; Div [Text "0.17"]]] ].
Proof.
  split; [| split; [| split; [| split; [| split]]]].
  - intros company metric. apply kpi_latest_spec.
  - apply (bool_decide_unpack _). vm_compute. exact I.
  - intros company group year_range. unfold kpi_projection. cbn [sel_company sel_group].
    eapply returns_weaken; [apply returns_update_kpis_and_insights |].
    intros v [Hcards _]. exact Hcards.
  - vm_compute. reflexivity.
  - vm_compute. reflexivity.
  - vm_compute. reflexivity.
Qed.

(** * Further properties of the program *)

(** ** KPI cards and insights *)

(** X1: for every company, group key and state of the globals the KPI
    callback returns one card per metric of the group, in the order of the
    group's list, followed by nothing else, and the insights section is
    the heading followed by one entry per metric in the same order, an
    entry without a text in [insights] carrying "No insight available.".
    A group key outside the catalog counts as the empty list. *)
Theorem X1_kpi_cards_and_insights (company group : string) (G : Globals) :
  let metrics := get (st_metric_groups G) group [] in
  returns (update_kpis_and_insights company group) G
    (fun v =>
       fst v = List.map (kpi_card_of (st_df G) company) metrics
       /\ snd v = H4 "Insights for Selected Ratios"
                  :: List.map (insight_of (st_insights G)) metrics).
Proof.
  intros metrics. unfold update_kpis_and_insights.
  eapply returns_bind;
    [apply (returns_read _ _ (fun groups => groups = st_metric_groups G));
     reflexivity |].
  intros groups ->. fold metrics.
  eapply returns_bind;
    [apply (returns_mapM _ (fun metric card =>
                              card = kpi_card_of (st_df G) company metric));
     intros; apply returns_kpi_card |].
  intros cards Hcards. apply Forall2_eq_map in Hcards.
  eapply returns_bind;
    [apply (returns_mapM _ (fun metric entry =>
                              entry = insight_of (st_insights G) metric));
     intros; apply returns_insight_entry |].
  intros entries Hentries. apply Forall2_eq_map in Hentries.
  apply returns_ret. cbn [fst snd]. split; congruence.
Qed.

Lemma string_length_append (a b : string) :
  String.length (a ++ b) = (String.length a + String.length b)%nat.
Proof.
  induction a as [| c a IH]; [reflexivity |].
  change (S (String.length (a ++ b)) = S (String.length a + String.length b)).
  f_equal. exact IH.
Qed.

Lemma digits_nonempty (n : Z) : (1 <= String.length (digits n))%nat.
Proof.
  unfold digits. destruct (N.to_uint (Z.to_N n)); cbn; lia.
Qed.

Lemma zero_pad_length (width : nat) (s : string) :
  (width <= String.length (zero_pad width s))%nat.
Proof.
  unfold zero_pad.
  assert (H : forall k, String.length (Nat.iter k (String "0"%char) s)
                        = (k + String.length s)%nat).
  { induction k as [| k IH]; [reflexivity |].
    change (S (String.length (Nat.iter k (String "0"%char) s))
            = S (k + String.length s)).
    f_equal. exact IH. }
  rewrite H. lia.
Qed.

(** A formatted float is never the absent marker. *)
Lemma format_2f_not_marker (x : float) : format_2f x <> "—".
Proof.
  destruct x as [q |]; [| discriminate]. intros E.
  apply (f_equal String.length) in E. unfold format_2f in E.
  rewrite !string_length_append in E.
  pose proof (digits_nonempty (Z.abs (round_half_even (q * 100)) / 100)) as Hd.
  pose proof (zero_pad_length 2
                (digits (Z.abs (round_half_even (q * 100)) mod 100))) as Hp.
  cbn [String.length] in E. lia.
Qed.

Lemma value_label_marker_iff (df_local : DataFrame) (company metric : string) :
  value_label (kpi_latest df_local company metric) = "—"
  <-> (forall r, In r df_local -> Company r = company -> Metric r = metric -> False).
Proof.
  pose proof (kpi_latest_spec df_local company metric) as Hspec.
  destruct (kpi_latest df_local company metric) as [v |]; cbn [value_label].
  - split.
    + intros E. destruct (format_2f_not_marker v E).
    + intros Hnone. destruct Hspec as (r & Hr & Hc & Hm & _).
      destruct (Hnone r Hr Hc Hm).
  - split; [intros _; exact Hspec | reflexivity].
Qed.


(** ** When [update_charts] raises *)

Lemma update_charts_empty_group (company group : string) (year_range : Z * Z)
    (G : Globals) :
  st_metric_groups G !! group = Some [] ->
  update_charts company group year_range G = (Raise IndexError, G).
Proof.
  intros H. destruct year_range as [yr_min yr_max]. unfold update_charts.
  rewrite bind_unfold. cbn [read]. rewrite bind_unfold.
  unfold getitem. rewrite H. cbn [mret py_ret].
  rewrite bind_unfold. cbn [read]. rewrite bind_unfold.
  destruct (returns_main_chart company group [] (filtered [] yr_min yr_max (st_df G)) G)
    as (fig & Hfig & _).
  rewrite Hfig. rewrite bind_unfold. unfold sparkline.
  rewrite bind_unfold. reflexivity.
Qed.

(** X3: for every state of the globals, [update_charts] has exactly three
    behaviours, decided by the group key alone: it raises [KeyError] on a
    key that [metric_groups] lacks, it raises [IndexError] (from
    [metrics[0]]) on a key bound to the empty list, and it returns on a
    key bound to a non-empty list; company and year range never make it
    raise, and the globals are left as they were in all three cases. *)
Theorem X3_update_charts_outcomes (company group : string)
    (year_range : Z * Z) (G : Globals) :
  match st_metric_groups G !! group with
  | None => update_charts company group year_range G = (Raise (KeyError group), G)
  | Some [] => update_charts company group year_range G = (Raise IndexError, G)
  | Some (_ :: _) =>
      exists v, update_charts company group year_range G = (Return v, G)
  end.
Proof.
  destruct (st_metric_groups G !! group) as [[| primary rest] |] eqn:E.
  - apply update_charts_empty_group. exact E.
  - destruct year_range as [yr_min yr_max].
    destruct (returns_update_charts company group primary rest yr_min yr_max G E)
      as (v & Hv & _).
    exists v. exact Hv.
  - apply update_charts_unknown_group. exact E.
Qed.

(** ** The series of the charts *)

Lemma select_metric_company (d : DataFrame) (company metric : string) :
  select (fun r => String.eqb (Metric r) metric
                   && String.eqb (Company r) company)%bool d
  = select (fun r => String.eqb (Company r) company
                     && String.eqb (Metric r) metric)%bool d.
Proof. apply List.filter_ext. intros r. apply andb_comm. Qed.

Lemma value_labels_of_frame (s : DataFrame) :
  List.map value_label (iter_values s) = List.map format_2f (List.map Value s).
Proof. unfold iter_values. rewrite !List.map_map. reflexivity. Qed.

Lemma comparison_bar_is (dff : DataFrame) (metric comp : string) (G : Globals) :
  returns (comparison_bar dff metric comp) G (bar_is G dff true (comp, metric)).
Proof.
  eexists. split; [reflexivity |]. unfold bar_is, series_rows. cbn [fst snd andb].
  rewrite select_metric_company, value_labels_of_frame.
  destruct (String.eqb comp "UltraTech Cement"); repeat split.
Qed.

Lemma company_bar_is (dff : DataFrame) (company metric : string) (G : Globals) :
  returns (company_bar dff company metric) G (bar_is G dff false (company, metric)).
Proof.
  eexists. split; [reflexivity |]. unfold bar_is, series_rows. cbn [fst snd andb].
  rewrite value_labels_of_frame. repeat split.
Qed.

Lemma spark_line_is (dff : DataFrame) (primary comp : string) (G : Globals) :
  returns (spark_line dff primary comp) G (line_is G dff primary comp).
Proof.
  eexists. split; [reflexivity |]. unfold line_is, series_rows.
  rewrite select_metric_company. repeat split.
Qed.

Lemma Forall2_flat_map {A B C : Type} (R : B -> C -> Prop) (g : A -> list B)
    (l : list A) (ls : list (list C)) :
  Forall2 (fun x ys => Forall2 R (g x) ys) l ls ->
  Forall2 R (flat_map g l) (List.concat ls).
Proof.
  induction 1 as [| x ys l ls Hxy _ IH]; cbn; [constructor |].
  apply Forall2_app; assumption.
Qed.

Lemma Forall2_map_l {A B C : Type} (R : B -> C -> Prop) (g : A -> B)
    (l : list A) (l' : list C) :
  Forall2 (fun x y => R (g x) y) l l' -> Forall2 R (List.map g l) l'.
Proof. induction 1; cbn; constructor; assumption. Qed.

Lemma main_chart_is (company group : string) (metrics : list string)
    (dff : DataFrame) (G : Globals) :
  returns (main_chart company group metrics dff) G
    (fun fig =>
       Forall2 (bar_is G dff (String.eqb company "Both"))
               (series_keys company metrics) (main_data fig)
       /\ main_layout fig
          = mkMainLayout "group"
              (if String.eqb company "Both"
               then "Comparison — grouped by metric & company"
               else company ++ " — " ++ title group)
              "Year" "Value").
Proof.
  unfold main_chart, series_keys. destruct (String.eqb company "Both").
  - eapply returns_bind.
    + apply (returns_mapM _
               (fun metric bars =>
                  Forall2 (bar_is G dff true)
                          (List.map (fun comp => (comp, metric)) both_companies)
                          bars)).
      intros metric _.
      eapply returns_weaken;
        [apply (returns_mapM _ (fun comp bar => bar_is G dff true (comp, metric) bar));
         intros; apply comparison_bar_is |].
      intros bars Hbars. apply Forall2_map_l. exact Hbars.
    + intros traces Htraces. apply returns_ret. cbn [main_data main_layout].
      split; [| reflexivity]. apply Forall2_flat_map. exact Htraces.
  - eapply returns_bind.
    + apply (returns_mapM _ (fun metric bar => bar_is G dff false (company, metric) bar)).
      intros; apply company_bar_is.
    + intros traces Htraces. apply returns_ret. cbn [main_data main_layout].
      split; [| reflexivity]. apply Forall2_map_l. exact Htraces.
Qed.

Lemma sparkline_is (company primary : string) (rest : list string)
    (dff : DataFrame) (G : Globals) :
  returns (sparkline company (primary :: rest) dff) G
    (fun fig =>
       Forall2 (line_is G dff primary) (shown_companies company) (spark_data fig)
       /\ spark_layout fig = mkSparkLayout ("Trend — " ++ primary) 280).
Proof.
  unfold sparkline, shown_companies.
  eapply returns_bind;
    [apply (returns_first _ _ _ (fun p => p = primary)); reflexivity |].
  intros p ->.
  eapply returns_bind
    with (P := fun traces =>
                 Forall2 (line_is G dff primary)
                         (if String.eqb company "Both"
                          then both_companies else [company]) traces).
  - destruct (String.eqb company "Both").
    + apply returns_mapM. intros; apply spark_line_is.
    + eapply returns_bind; [apply spark_line_is |].
      intros line Hline. apply returns_ret.
      constructor; [exact Hline | constructor].
  - intros traces Htraces. apply returns_ret. split; [exact Htraces | reflexivity].
Qed.

(** Everything [update_charts] returns, for a group bound to a non-empty
    metric list. *)
Lemma update_charts_is (company group primary : string) (rest : list string)
    (yr_min yr_max : Z) (G : Globals) :
  st_metric_groups G !! group = Some (primary :: rest) ->
  returns (update_charts company group (yr_min, yr_max)) G
    (fun v =>
       let dff := filtered (primary :: rest) yr_min yr_max (st_df G) in
       Forall2 (bar_is G dff (String.eqb company "Both"))
               (series_keys company (primary :: rest))
               (main_data (fst (fst v)))
       /\ Forall2 (line_is G dff primary) (shown_companies company)
                  (spark_data (snd (fst v)))
       /\ snd v = Pre (table_text dff)).
Proof.
  intros Hgroup. unfold update_charts.
  eapply returns_bind;
    [apply (returns_read _ _ (fun groups => groups = st_metric_groups G));
     reflexivity |].
  intros groups ->.
  eapply returns_bind with (P := fun metrics => metrics = primary :: rest).
  { unfold getitem. rewrite Hgroup. apply returns_ret. reflexivity. }
  intros metrics ->.
  eapply returns_bind;
    [apply (returns_read _ _ (fun d => d = st_df G)); reflexivity |].
  intros d ->.
  eapply returns_bind; [apply main_chart_is |].
  intros fig [Hfig _].
  eapply returns_bind; [apply sparkline_is |].
  intros spark [Hspark _].
  apply returns_ret. cbn [fst snd]. auto.
Qed.

(** *** Sorting and the year filter commute *)

Lemma insert_by_Year_head (r : Row) (d : DataFrame) :
  (forall x, In x d -> Year r <= Year x) -> insert_by_Year r d = r :: d.
Proof.
  destruct d as [| r' d]; [reflexivity |]. intros H. cbn [insert_by_Year].
  rewrite (proj2 (Z.leb_le _ _) (H r' (or_introl eq_refl))). reflexivity.
Qed.

Lemma filter_insert_by_Year (p : Row -> bool) (r : Row) (d : DataFrame) :
  StronglySorted Year_le d ->
  List.filter p (insert_by_Year r d)
  = if p r then insert_by_Year r (List.filter p d) else List.filter p d.
Proof.
  induction 1 as [| r' d Hd IH Hr']; cbn [insert_by_Year List.filter].
  - destruct (p r); reflexivity.
  - destruct (Z.leb_spec (Year r) (Year r')) as [Hle | Hgt]; cbn [List.filter].
    + destruct (p r) eqn:Er; [| reflexivity].
      destruct (p r') eqn:Er'.
      * cbn [insert_by_Year]. rewrite (proj2 (Z.leb_le _ _) Hle). reflexivity.
      * symmetry. apply insert_by_Year_head. intros x Hx.
        apply filter_In in Hx as [Hx _].
        rewrite List.Forall_forall in Hr'. specialize (Hr' x Hx).
        unfold Year_le in Hr'. lia.
    + rewrite IH. destruct (p r) eqn:Er, (p r') eqn:Er'; try reflexivity.
      cbn [insert_by_Year]. rewrite (proj2 (Z.leb_gt _ _) Hgt). reflexivity.
Qed.

Lemma sort_values_Year_filter (p : Row -> bool) (d : DataFrame) :
  sort_values_Year (List.filter p d) = List.filter p (sort_values_Year d).
Proof.
  induction d as [| r d IH]; [reflexivity |].
  cbn [List.filter sort_values_Year fold_right]. fold (sort_values_Year d).
  rewrite (filter_insert_by_Year p r _ (sort_values_Year_sorted d)).
  destruct (p r); [| exact IH].
  cbn [sort_values_Year fold_right]. fold (sort_values_Year (List.filter p d)).
  rewrite IH. reflexivity.
Qed.

Lemma filter_filter {A : Type} (f g : A -> bool) (l : list A) :
  List.filter f (List.filter g l) = List.filter (fun x => g x && f x)%bool l.
Proof.
  induction l as [| x l IH]; [reflexivity |]. cbn [List.filter].
  destruct (g x); cbn [List.filter andb]; [destruct (f x) |]; congruence.
Qed.

(** The rows of a series of the filtered frame are the rows of that
    series in the whole frame whose year lies in the range. *)
Lemma series_rows_filtered (metrics : list string) (yr_min yr_max : Z)
    (d : DataFrame) (company metric : string) :
  In metric metrics ->
  series_rows (filtered metrics yr_min yr_max d) company metric
  = List.filter (fun r => in_range yr_min yr_max (Year r))
                (series_rows d company metric).
Proof.
  intros Hin. unfold series_rows, filtered, select.
  rewrite <- sort_values_Year_filter. f_equal. rewrite !filter_filter.
  apply List.filter_ext. intros r. unfold in_range.
  destruct (String.eqb (Company r) company); cbn [andb];
    [| rewrite andb_false_r; reflexivity].
  destruct (String.eqb_spec (Metric r) metric) as [E | _]; cbn [andb];
    [| rewrite andb_false_r; reflexivity].
  rewrite andb_true_r. rewrite E, (proj2 (isin_In metric metrics) Hin).
  reflexivity.
Qed.

Lemma series_keys_In (company : string) (metrics : list string)
    (key : string * string) :
  In key (series_keys company metrics) ->
  In (fst key) (shown_companies company) /\ In (snd key) metrics.
Proof.
  unfold series_keys, shown_companies. destruct (String.eqb company "Both").
  - rewrite in_flat_map. intros (metric & Hm & Hk).
    apply in_map_iff in Hk as (comp & <- & Hc). auto.
  - rewrite in_map_iff. intros (metric & <- & Hm). cbn. auto.
Qed.

Lemma Forall2_Forall_r {A B : Type} (R : A -> B -> Prop) (Q : B -> Prop)
    (l : list A) (l' : list B) :
  Forall2 R l l' -> (forall x y, In x l -> R x y -> Q y) -> Forall Q l'.
Proof.
  induction 1 as [| x y l l' Hxy _ IH]; intros H; constructor.
  - apply (H x y); [left; reflexivity | exact Hxy].
  - apply IH. intros x' y' Hx'. apply H. right. exact Hx'.
Qed.

Lemma Forall2_weaken_In {A B : Type} (R R' : A -> B -> Prop)
    (l : list A) (l' : list B) :
  Forall2 R l l' -> (forall x y, In x l -> R x y -> R' x y) -> Forall2 R' l l'.
Proof.
  induction 1 as [| x y l l' Hxy _ IH]; intros H; constructor.
  - apply H; [left; reflexivity | exact Hxy].
  - apply IH. intros x' y' Hx'. apply H. right. exact Hx'.
Qed.



(** *** The category axis over the dataset *)

(** In the dataset every catalog metric has, for each of the two
    companies, one record per year of [year_numbers], labelled as in
    [years]. *)
Lemma series_years_of_df (comp metric group : string) (metrics : list string) :
  In comp both_companies ->
  metric_groups !! group = Some metrics -> In metric metrics ->
  List.map (fun r => (Year r, YearLabel r)) (series_rows df comp metric)
  = combine year_numbers years.
Proof.
  intros Hcomp Hgroup Hmetric. apply metric_groups_inv in Hgroup.
  destruct Hcomp as [<- | [<- | []]];
    destruct Hgroup as [[_ ->] | [[_ ->] | [[_ ->] | [_ ->]]]];
    repeat (destruct Hmetric as [<- | Hmetric]; [vm_compute; reflexivity |]);
    destruct Hmetric.
Qed.

Lemma labels_of_filter (yr_min yr_max : Z) (s : DataFrame) :
  List.map YearLabel (List.filter (fun r => in_range yr_min yr_max (Year r)) s)
  = List.map snd
      (List.filter (fun p => in_range yr_min yr_max (fst p))
                   (List.map (fun r => (Year r, YearLabel r)) s)).
Proof.
  induction s as [| r s IH]; [reflexivity |]. cbn [List.map List.filter fst].
  destruct (in_range yr_min yr_max (Year r)); cbn [List.map snd]; congruence.
Qed.

(** X5: over the dataset of the module, for each of the three company
    options, every catalog group and every pair of integer bounds, every
    bar series and every sparkline of [update_charts] has as its x axis
    exactly the year labels of the dataset whose year lies in
    [min, max], in ascending order, and one y value per label: a year with
    a missing value keeps its place on the axis. *)
Theorem X5_axis_is_the_years_in_range (company group : string)
    (metrics : list string) (yr_min yr_max : Z) :
  In company ["Ambuja Cements"; "UltraTech Cement"; "Both"] ->
  metric_groups !! group = Some metrics ->
  returns (update_charts company group (yr_min, yr_max)) module_globals
    (fun v =>
       Forall (fun bar =>
                 bar_x bar = labels_in_range yr_min yr_max
                 /\ List.length (bar_y bar)
                    = List.length (labels_in_range yr_min yr_max))
              (main_data (fst (fst v)))
       /\ Forall (fun line =>
                    scatter_x line = labels_in_range yr_min yr_max
                    /\ List.length (scatter_y line)
                       = List.length (labels_in_range yr_min yr_max))
                 (spark_data (snd (fst v)))).
Proof.
  intros Hcompany Hgroup.
  destruct (metric_groups_nonempty _ _ Hgroup) as (primary & rest & ->).
  assert (Hshown : forall comp, In comp (shown_companies company) ->
                                In comp both_companies).
  { unfold shown_companies, both_companies.
    destruct Hcompany as [<- | [<- | [<- | []]]]; cbn; tauto. }
  assert (Haxis : forall comp metric,
             In comp (shown_companies company) -> In metric (primary :: rest) ->
             List.map YearLabel
               (series_rows (filtered (primary :: rest) yr_min yr_max df) comp metric)
             = labels_in_range yr_min yr_max).
  { intros comp metric Hcomp Hmetric.
    rewrite series_rows_filtered by exact Hmetric.
    rewrite labels_of_filter.
    rewrite (series_years_of_df comp metric group (primary :: rest));
      auto. }
  eapply returns_weaken;
    [apply (update_charts_is company group primary rest yr_min yr_max module_globals);
     exact Hgroup |].
  intros v (Hbars & Hlines & _). cbn zeta in Hbars, Hlines.
  change (st_df module_globals) with df in Hbars, Hlines. split.
  - eapply Forall2_Forall_r; [exact Hbars |].
    intros key bar Hkey (Hx & Hy & _).
    apply series_keys_In in Hkey as [Hc Hm].
    rewrite Hy, List.length_map, <- (Haxis _ _ Hc Hm), List.length_map.
    rewrite Hx, (Haxis _ _ Hc Hm). auto.
  - eapply Forall2_Forall_r; [exact Hlines |].
    intros comp line Hcomp (Hx & Hy & _).
    assert (Hp : In primary (primary :: rest)) by (left; reflexivity).
    rewrite Hy, List.length_map, <- (Haxis _ _ Hcomp Hp), List.length_map.
    rewrite Hx, (Haxis _ _ Hcomp Hp). auto.
Qed.

Lemma X5_axis_is_the_years_in_range_witness :
  returns (update_charts "UltraTech Cement" "turnover" (2021, 2022)) module_globals
    (fun v =>
       Forall (fun bar =>
                 bar_x bar = labels_in_range 2021 2022
                 /\ List.length (bar_y bar)
                    = List.length (labels_in_range 2021 2022))
              (main_data (fst (fst v)))
       /\ Forall (fun line =>
                    scatter_x line = labels_in_range 2021 2022
                    /\ List.length (scatter_y line)
                       = List.length (labels_in_range 2021 2022))
                 (spark_data (snd (fst v)))).
Proof.
  apply (X5_axis_is_the_years_in_range
           "UltraTech Cement" "turnover"
           ["Inventory Turnover"; "Asset Turnover"; "Trade Receivable Turnover"]
           2021 2022).
  - right; left; reflexivity.
  - vm_compute. reflexivity.
Defined.

(** *** Labels, markers and the sparkline *)

(** X6: for every state of the globals, in every bar series that
    [update_charts] returns the text labels are the y values formatted
    with two decimals, position by position; hence a missing value (NaN)
    is labelled "nan" and no label is ever the absent marker "—", and the
    x values, y values and labels have the same number of entries. *)
Theorem X6_labels_are_formatted_values (company group primary : string)
    (rest : list string) (yr_min yr_max : Z) (G : Globals) :
  st_metric_groups G !! group = Some (primary :: rest) ->
  returns (update_charts company group (yr_min, yr_max)) G
    (fun v =>
       Forall (fun bar =>
                 bar_text bar = List.map format_2f (bar_y bar)
                 /\ List.length (bar_x bar) = List.length (bar_y bar)
                 /\ ~ In "—" (bar_text bar)
                 /\ forall i, nth_error (bar_y bar) i = Some NaN ->
                              nth_error (bar_text bar) i = Some "nan")
              (main_data (fst (fst v)))).
Proof.
  intros Hgroup.
  eapply returns_weaken; [apply update_charts_is; exact Hgroup |].
  intros v (Hbars & _ & _). cbn zeta in Hbars.
  eapply Forall2_Forall_r; [exact Hbars |].
  intros key bar _ (Hx & Hy & Ht & _). rewrite <- Hy in Ht.
  split; [exact Ht |]. split; [rewrite Hx, Hy, !List.length_map; reflexivity |].
  rewrite Ht. split.
  - intros Hin. apply in_map_iff in Hin as (x & Hx' & _).
    exact (format_2f_not_marker x Hx').
  - intros i Hi. rewrite List.nth_error_map, Hi. reflexivity.
Qed.

Lemma X6_labels_are_formatted_values_witness :
  returns (update_charts "UltraTech Cement" "turnover" (2021, 2025)) module_globals
    (fun v =>
       Forall (fun bar =>
                 bar_text bar = List.map format_2f (bar_y bar)
                 /\ List.length (bar_x bar) = List.length (bar_y bar)
                 /\ ~ In "—" (bar_text bar)
                 /\ forall i, nth_error (bar_y bar) i = Some NaN ->
                              nth_error (bar_text bar) i = Some "nan")
              (main_data (fst (fst v)))).
Proof.
  apply (X6_labels_are_formatted_values
           "UltraTech Cement" "turnover" "Inventory Turnover"
           ["Asset Turnover"; "Trade Receivable Turnover"] 2021 2025 module_globals).
  vm_compute. reflexivity.
Defined.

Lemma map_flat_map {A B C : Type} (f : B -> C) (g : A -> list B) (l : list A) :
  List.map f (flat_map g l) = flat_map (fun x => List.map f (g x)) l.
Proof.
  induction l as [| x l IH]; [reflexivity |]. cbn [flat_map].
  rewrite List.map_app, IH. reflexivity.
Qed.

(** X7: for every state of the globals, in comparison mode (company
    "Both") the bars come in pairs per metric, both in the metric's colour
    (black when [metric_colors] lacks the metric), the first (Ambuja)
    plain and the second (UltraTech) with the hatch pattern; for any other
    company selection there is one plain bar per metric in the metric's
    colour, without hatch even when the company is UltraTech Cement. *)
Theorem X7_colour_names_the_metric_hatch_the_company (company group primary : string)
    (rest : list string) (yr_min yr_max : Z) (G : Globals) :
  st_metric_groups G !! group = Some (primary :: rest) ->
  returns (update_charts company group (yr_min, yr_max)) G
    (fun v =>
       let colour := fun metric => get (st_metric_colors G) metric "#000000" in
       List.map bar_marker (main_data (fst (fst v)))
       = if String.eqb company "Both"
         then flat_map (fun metric => [ mkMarker (colour metric) None;
                                        mkMarker (colour metric) (Some hatch) ])
                       (primary :: rest)
         else List.map (fun metric => mkMarker (colour metric) None)
                       (primary :: rest)).
Proof.
  intros Hgroup.
  eapply returns_weaken; [apply update_charts_is; exact Hgroup |].
  intros v (Hbars & _ & _). cbn zeta in Hbars |- *.
  assert (Hmarkers :
            Forall2 (fun key bar =>
                       bar_marker bar
                       = mkMarker (get (st_metric_colors G) (snd key) "#000000")
                                  (if (String.eqb company "Both"
                                       && String.eqb (fst key) "UltraTech Cement")%bool
                                   then Some hatch else None))
                    (series_keys company (primary :: rest))
                    (main_data (fst (fst v)))).
  { eapply Forall2_weaken_In; [exact Hbars |].
    intros key bar _ (_ & _ & _ & _ & _ & Hm). exact Hm. }
  apply Forall2_map_eq in Hmarkers. rewrite Hmarkers. unfold series_keys.
  destruct (String.eqb company "Both"); cbn [andb].
  - rewrite map_flat_map. reflexivity.
  - rewrite List.map_map. reflexivity.
Qed.

Lemma X7_colour_names_the_metric_hatch_the_company_witness :
  returns (update_charts "UltraTech Cement" "leverage" (2021, 2025)) module_globals
    (fun v =>
       let colour := fun metric => get (st_metric_colors module_globals)
                                       metric "#000000" in
       List.map bar_marker (main_data (fst (fst v)))
       = if String.eqb "UltraTech Cement" "Both"
         then flat_map (fun metric => [ mkMarker (colour metric) None;
                                        mkMarker (colour metric) (Some hatch) ])
                       ["Interest Coverage Ratio"]
         else List.map (fun metric => mkMarker (colour metric) None)
                       ["Interest Coverage Ratio"]).
Proof.
  apply (X7_colour_names_the_metric_hatch_the_company
           "UltraTech Cement" "leverage" "Interest Coverage Ratio" []
           2021 2025 module_globals).
  vm_compute. reflexivity.
Defined.

(** X8: for every state of the globals, the sparkline shows the primary
    (first) metric of the group only: one line per shown company (the two
    companies for "Both", else the selected one), named after the company,
    coloured by [company_colors] (black for a company it lacks), titled
    "Trend — " followed by the primary metric, and carrying exactly the
    points (x and y values) of the leading bar series of the main chart,
    which are those of the primary metric. *)
Theorem X8_sparkline_repeats_the_primary_series (company group primary : string)
    (rest : list string) (yr_min yr_max : Z) (G : Globals) :
  st_metric_groups G !! group = Some (primary :: rest) ->
  returns (update_charts company group (yr_min, yr_max)) G
    (fun v =>
       let bars := main_data (fst (fst v)) in
       let lines := spark_data (snd (fst v)) in
       List.map scatter_name lines = shown_companies company
       /\ List.map scatter_line_color lines
          = List.map (fun comp => get (st_company_colors G) comp "#000000")
                     (shown_companies company)
       /\ List.map (fun line => (scatter_x line, scatter_y line)) lines
          = List.map (fun bar => (bar_x bar, bar_y bar))
                     (firstn (List.length (shown_companies company)) bars)).
Proof.
  intros Hgroup.
  eapply returns_weaken; [apply update_charts_is; exact Hgroup |].
  intros v (Hbars & Hlines & _). cbn zeta in Hbars, Hlines |- *.
  set (dff := filtered (primary :: rest) yr_min yr_max (st_df G)) in *.
  assert (Hnames : List.map scatter_name (spark_data (snd (fst v)))
                   = List.map (fun comp => comp) (shown_companies company)).
  { apply Forall2_map_eq. eapply Forall2_weaken_In; [exact Hlines |].
    intros comp line _ (_ & _ & _ & Hn & _). exact Hn. }
  rewrite List.map_id in Hnames.
  assert (Hcolors : List.map scatter_line_color (spark_data (snd (fst v)))
                    = List.map (fun comp => get (st_company_colors G) comp "#000000")
                               (shown_companies company)).
  { apply Forall2_map_eq. eapply Forall2_weaken_In; [exact Hlines |].
    intros comp line _ (_ & _ & _ & _ & Hc). exact Hc. }
  assert (Hpoints : List.map (fun line => (scatter_x line, scatter_y line))
                             (spark_data (snd (fst v)))
                    = List.map (fun comp =>
                                  (List.map YearLabel (series_rows dff comp primary),
                                   List.map Value (series_rows dff comp primary)))
                               (shown_companies company)).
  { apply Forall2_map_eq. eapply Forall2_weaken_In; [exact Hlines |].
    intros comp line _ (Hx & Hy & _). rewrite Hx, Hy. reflexivity. }
  split; [exact Hnames |]. split; [exact Hcolors |]. rewrite Hpoints.
  unfold series_keys, shown_companies in *.
  destruct (String.eqb company "Both"); cbn [flat_map List.map both_companies app] in Hbars.
  - inversion Hbars as [| k1 b1 ks1 bs1 (Hx1 & Hy1 & _) Hbars1]; subst.
    inversion Hbars1 as [| k2 b2 ks2 bs2 (Hx2 & Hy2 & _) Hbars2]; subst.
    cbn [fst snd] in *. cbn [both_companies List.length firstn List.map].
    rewrite Hx1, Hy1, Hx2, Hy2. reflexivity.
  - inversion Hbars as [| k1 b1 ks1 bs1 (Hx1 & Hy1 & _) Hbars1]; subst.
    cbn [fst snd] in *. cbn [List.length firstn List.map].
    rewrite Hx1, Hy1. destruct bs1; reflexivity.
Qed.

Lemma X8_sparkline_repeats_the_primary_series_witness :
  returns (update_charts "Both" "turnover" (2021, 2025)) module_globals
    (fun v =>
       let bars := main_data (fst (fst v)) in
       let lines := spark_data (snd (fst v)) in
       List.map scatter_name lines = shown_companies "Both"
       /\ List.map scatter_line_color lines
          = List.map (fun comp => get (st_company_colors module_globals)
                                      comp "#000000")
                     (shown_companies "Both")
       /\ List.map (fun line => (scatter_x line, scatter_y line)) lines
          = List.map (fun bar => (bar_x bar, bar_y bar))
                     (firstn (List.length (shown_companies "Both")) bars)).
Proof.
  apply (X8_sparkline_repeats_the_primary_series
           "Both" "turnover" "Inventory Turnover"
           ["Asset Turnover"; "Trade Receivable Turnover"] 2021 2025 module_globals).
  vm_compute. reflexivity.
Defined.

(** ** The rows and cells of the table *)

Lemma pivot_table_index (d : DataFrame) (y : string) :
  In y (index (pivot_table d))
  <-> exists r, In r d /\ YearLabel r = y /\ is_nan (Value r) = false.
Proof.
  unfold pivot_table, dropna_columns, unstack. cbn [index].
  set (g := dropna_groups (groupby_mean d)). split.
  - intros Hy. apply (proj1 (In_sort_uniq _ String.compare_eq_iff _ _)) in Hy.
    apply in_map_iff in Hy as ([[y' c] v] & E & Hkv). cbn [fst] in E. subst y'.
    destruct (proj1 (dropna_groups_key (y, c) d) (ex_intro _ v Hkv))
      as (r & Hr & Hkey & Hnan).
    exists r. unfold group_key in Hkey. injection Hkey as Hy _. auto.
  - intros (r & Hr & Hy & Hnan).
    destruct (proj2 (dropna_groups_key (group_key r) d)) as (v & Hv);
      [exists r; auto |].
    apply (proj2 (In_sort_uniq _ String.compare_eq_iff _ _)). apply in_map_iff.
    exists (group_key r, v). split; [exact Hy | exact Hv].
Qed.






(** *** The order of the row and column labels *)

From Stdlib Require OrderedTypeEx.

Section SortUniqSorted.
Context {K : Type} (cmp : K -> K -> comparison).
Hypothesis cmp_eq : forall a b, cmp a b = Eq -> a = b.
Hypothesis cmp_antisym : forall a b, cmp a b = CompOpp (cmp b a).
Hypothesis cmp_trans : forall a b c, cmp a b = Lt -> cmp b c = Lt -> cmp a c = Lt.

Lemma insert_uniq_sorted (k : K) (l : list K) :
  StronglySorted (fun a b => cmp a b = Lt) l ->
  StronglySorted (fun a b => cmp a b = Lt) (insert_uniq cmp k l).
Proof.
  induction 1 as [| k' l Hl IH Hk']; cbn [insert_uniq].
  - repeat constructor.
  - destruct (cmp k k') eqn:E.
    + constructor; assumption.
    + constructor; [constructor; assumption |].
      constructor; [exact E |].
      rewrite List.Forall_forall in Hk' |- *. intros x Hx.
      apply (cmp_trans k k' x); auto.
    + constructor; [exact IH |].
      rewrite List.Forall_forall in Hk' |- *. intros x Hx.
      apply (In_insert_uniq cmp cmp_eq) in Hx as [-> | Hx]; [| auto].
      rewrite cmp_antisym, E. reflexivity.
Qed.

Lemma sort_uniq_sorted (l : list K) :
  StronglySorted (fun a b => cmp a b = Lt) (sort_uniq cmp l).
Proof.
  induction l as [| k l IH]; cbn [sort_uniq fold_right].
  - constructor.
  - apply insert_uniq_sorted. exact IH.
Qed.

(** Two strictly ascending lists with the same members are equal. *)
Lemma sorted_same_members (l l' : list K) :
  StronglySorted (fun a b => cmp a b = Lt) l ->
  StronglySorted (fun a b => cmp a b = Lt) l' ->
  (forall x, In x l <-> In x l') -> l = l'.
Proof.
  assert (Hirr : forall x, cmp x x <> Lt).
  { intros x E. pose proof (cmp_antisym x x) as H. rewrite E in H. discriminate. }
  intros Hl. revert l'.
  induction Hl as [| a l Hl IH Ha]; intros l' Hl' Hsame.
  - destruct l' as [| b l']; [reflexivity |].
    destruct (proj2 (Hsame b) (or_introl eq_refl)).
  - destruct Hl' as [| b l' Hl' Hb].
    { destruct (proj1 (Hsame a) (or_introl eq_refl)). }
    rewrite List.Forall_forall in Ha, Hb.
    assert (Hab : a = b).
    { destruct (proj1 (Hsame a) (or_introl eq_refl)) as [E | Hin]; [auto |].
      destruct (proj2 (Hsame b) (or_introl eq_refl)) as [E | Hin']; [auto |].
      destruct (Hirr a). apply (cmp_trans a b a); auto. }
    subst b. f_equal. apply IH; [exact Hl' |].
    intros x. split; intros Hx.
    + destruct (proj1 (Hsame x) (or_intror Hx)) as [E | Hin]; [| exact Hin].
      subst x. destruct (Hirr a). auto.
    + destruct (proj2 (Hsame x) (or_intror Hx)) as [E | Hin]; [| exact Hin].
      subst x. destruct (Hirr a). auto.
Qed.
End SortUniqSorted.

Lemma StronglySorted_filter {A : Type} (R : A -> A -> Prop) (p : A -> bool)
    (l : list A) :
  StronglySorted R l -> StronglySorted R (List.filter p l).
Proof.
  induction 1 as [| a l Hl IH Ha]; cbn [List.filter]; [constructor |].
  destruct (p a); [| exact IH]. constructor; [exact IH |].
  rewrite List.Forall_forall in Ha |- *. intros x Hx.
  apply filter_In in Hx as [Hx _]. auto.
Qed.

Lemma string_compare_trans (a b c : string) :
  String.compare a b = Lt -> String.compare b c = Lt -> String.compare a c = Lt.
Proof.
  intros Hab Hbc.
  apply OrderedTypeEx.String_as_OT.cmp_lt in Hab, Hbc.
  apply OrderedTypeEx.String_as_OT.cmp_lt.
  exact (OrderedTypeEx.String_as_OT.lt_trans _ _ _ Hab Hbc).
Qed.

Lemma col_compare_antisym (c c' : ColKey) :
  col_compare c c' = CompOpp (col_compare c' c).
Proof.
  destruct c as [a b], c' as [a' b']. unfold col_compare, lex_compare. cbn [fst snd].
  rewrite (String.compare_antisym a a'), (String.compare_antisym b b').
  destruct (String.compare a' a); reflexivity.
Qed.

Lemma col_compare_trans (c1 c2 c3 : ColKey) :
  col_compare c1 c2 = Lt -> col_compare c2 c3 = Lt -> col_compare c1 c3 = Lt.
Proof.
  destruct c1 as [a1 b1], c2 as [a2 b2], c3 as [a3 b3].
  unfold col_compare, lex_compare. cbn [fst snd].
  destruct (String.compare a1 a2) eqn:E12; try discriminate;
    destruct (String.compare a2 a3) eqn:E23; try discriminate; intros H12 H23.
  - apply String.compare_eq_iff in E12, E23. subst a2 a3.
    rewrite string_compare_refl. exact (string_compare_trans _ _ _ H12 H23).
  - apply String.compare_eq_iff in E12. subst a2. rewrite E23. reflexivity.
  - apply String.compare_eq_iff in E23. subst a3. rewrite E12. reflexivity.
  - rewrite (string_compare_trans _ _ _ E12 E23). reflexivity.
Qed.

Lemma table_labels_sorted (dff : DataFrame) :
  StronglySorted (fun a b => String.compare a b = Lt)
                 (index (round_table (table_df dff)))
  /\ StronglySorted (fun c c' => col_compare c c' = Lt)
                    (List.map fst (columns (round_table (table_df dff)))).
Proof.
  rewrite round_table_columns.
  unfold round_table, table_df, pivot_table, dropna_columns, unstack.
  cbn [index columns]. split.
  - apply sort_uniq_sorted.
    + apply String.compare_eq_iff.
    + apply String.compare_antisym.
    + apply string_compare_trans.
  - rewrite filter_map_swap, List.map_map. cbn [fst]. rewrite List.map_id.
    apply StronglySorted_filter. apply sort_uniq_sorted.
    + apply col_compare_eq.
    + apply col_compare_antisym.
    + apply col_compare_trans.
Qed.

(** X10: for every frame handed to the table section, the row labels of
    the pivoted frame are strictly ascending in the order of strings, and
    its column labels are strictly ascending by company and then by
    metric: no label occurs twice, and the columns follow the alphabet,
    not the order of the group's metric list. *)
Theorem X10_table_labels_are_sorted (dff : DataFrame) :
  let t := round_table (table_df dff) in
  StronglySorted (fun a b => String.compare a b = Lt) (index t)
  /\ StronglySorted (fun c c' => col_compare c c' = Lt)
                    (List.map fst (columns t)).
Proof. intros t. subst t. apply table_labels_sorted. Qed.

(** *** The rows of the table over the dataset *)

Lemma df_labels (r : Row) :
  In r df -> In (Year r, YearLabel r) (combine year_numbers years).
Proof.
  assert (H : forallb (fun r => existsb (fun p => (fst p =? Year r)
                                                  && String.eqb (snd p) (YearLabel r))%bool
                                        (combine year_numbers years)) df = true)
    by (vm_compute; reflexivity).
  intros Hr. rewrite forallb_forall in H. specialize (H r Hr).
  apply existsb_exists in H as ([y l] & Hp & E). cbn [fst snd] in E.
  apply andb_prop in E as [Ey El]. apply Z.eqb_eq in Ey. apply String.eqb_eq in El.
  subst y l. exact Hp.
Qed.

Lemma ambuja_values_present (r : Row) :
  In r df -> Company r = "Ambuja Cements" -> is_nan (Value r) = false.
Proof.
  assert (H : forallb (fun r => negb (String.eqb (Company r) "Ambuja Cements")
                                || negb (is_nan (Value r)))%bool df = true)
    by (vm_compute; reflexivity).
  intros Hr Hc. rewrite forallb_forall in H. specialize (H r Hr).
  rewrite Hc, String.eqb_refl in H. cbn [negb orb] in H.
  apply negb_true_iff. exact H.
Qed.

Lemma labels_in_range_sorted (yr_min yr_max : Z) :
  StronglySorted (fun a b => String.compare a b = Lt)
                 (labels_in_range yr_min yr_max).
Proof.
  unfold labels_in_range.
  assert (H : forall l : list (Z * string),
             StronglySorted (fun a b => String.compare a b = Lt) (List.map snd l) ->
             StronglySorted (fun a b => String.compare a b = Lt)
               (List.map snd
                  (List.filter (fun p => in_range yr_min yr_max (fst p)) l))).
  { induction l as [| p l IH]; cbn [List.map List.filter]; [constructor |].
    intros Hs. apply StronglySorted_inv in Hs as [Hs Hp].
    destruct (in_range yr_min yr_max (fst p)); [| auto].
    cbn [List.map]. constructor; [auto |].
    rewrite List.Forall_forall in Hp |- *. intros x Hx. apply Hp.
    apply in_map_iff in Hx as (q & <- & Hq). apply filter_In in Hq as [Hq _].
    apply in_map. exact Hq. }
  apply H. repeat constructor.
Qed.

Lemma In_filtered (metrics : list string) (yr_min yr_max : Z) (d : DataFrame)
    (r : Row) :
  In r (filtered metrics yr_min yr_max d)
  <-> In r d /\ In (Metric r) metrics /\ in_range yr_min yr_max (Year r) = true.
Proof.
  unfold filtered, select, in_range. rewrite filter_In, <- andb_assoc, andb_true_iff.
  rewrite isin_In. reflexivity.
Qed.

Lemma In_series_rows (d : DataFrame) (company metric : string) (r : Row) :
  In r (series_rows d company metric)
  <-> In r d /\ Company r = company /\ Metric r = metric.
Proof.
  unfold series_rows, select. rewrite In_sort_values_Year, filter_In.
  rewrite andb_true_iff, !String.eqb_eq. reflexivity.
Qed.

Lemma In_labels_in_range (yr_min yr_max : Z) (y : string) :
  In y (labels_in_range yr_min yr_max)
  <-> exists yn, In (yn, y) (combine year_numbers years)
                 /\ in_range yr_min yr_max yn = true.
Proof.
  unfold labels_in_range. rewrite in_map_iff. split.
  - intros ([yn l] & Hl & Hp). cbn [snd] in Hl. subst l.
    apply filter_In in Hp as [Hp Hrange]. exists yn. auto.
  - intros (yn & Hp & Hrange). exists (yn, y). split; [reflexivity |].
    apply filter_In. auto.
Qed.

(** Over the dataset, the year labels with a value among the filtered
    records are the labels of the years in the range. *)
Lemma filtered_labels_of_df (group primary : string) (rest : list string)
    (yr_min yr_max : Z) (y : string) :
  metric_groups !! group = Some (primary :: rest) ->
  (exists r, In r (filtered (primary :: rest) yr_min yr_max df)
             /\ YearLabel r = y /\ is_nan (Value r) = false)
  <-> In y (labels_in_range yr_min yr_max).
Proof.
  intros Hgroup. rewrite In_labels_in_range. split.
  - intros (r & Hr & Hy & _). apply In_filtered in Hr as (Hr & _ & Hrange).
    exists (Year r). split; [| exact Hrange].
    rewrite <- Hy. apply df_labels. exact Hr.
  - intros (yn & Hp & Hrange).
    pose proof (series_years_of_df "Ambuja Cements" primary group (primary :: rest)
                  (or_introl eq_refl) Hgroup (or_introl eq_refl)) as Hyears.
    rewrite <- Hyears in Hp.
    apply in_map_iff in Hp as (r & E & Hr). injection E as Hyn Hy.
    apply In_series_rows in Hr as (Hr & Hc & Hm).
    exists r. split; [| split; [exact Hy | apply ambuja_values_present; assumption]].
    apply In_filtered. split; [exact Hr |]. split.
    + rewrite Hm. left. reflexivity.
    + rewrite Hyn. exact Hrange.
Qed.

Lemma table_index (dff : DataFrame) (y : string) :
  In y (index (round_table (table_df dff)))
  <-> exists r, In r dff /\ YearLabel r = y /\ is_nan (Value r) = false.
Proof. exact (pivot_table_index dff y). Qed.

(** X11: over the dataset of the module, for every company selection,
    every catalog group and every pair of integer bounds, the table that
    [update_charts] returns is the CSV text of a frame whose rows are
    exactly the year labels of the dataset whose year lies in [min, max],
    once each and in chronological order; the row of a year in which one
    company has no value is kept, since the other company has one. *)
Theorem X11_table_rows_are_the_years_in_range (company group : string)
    (metrics : list string) (yr_min yr_max : Z) :
  metric_groups !! group = Some metrics ->
  let t := round_table (table_df (filtered metrics yr_min yr_max df)) in
  returns (update_charts company group (yr_min, yr_max)) module_globals
          (fun v => snd v = Pre (to_csv t))
  /\ index t = labels_in_range yr_min yr_max.
Proof.
  intros Hgroup t. subst t. split; [apply update_charts_table; exact Hgroup |].
  destruct (metric_groups_nonempty _ _ Hgroup) as (primary & rest & ->).
  apply (sorted_same_members String.compare String.compare_antisym
                             string_compare_trans).
  - apply (table_labels_sorted (filtered (primary :: rest) yr_min yr_max df)).
  - apply labels_in_range_sorted.
  - intros y.
    rewrite <- (filtered_labels_of_df group primary rest yr_min yr_max y Hgroup).
    apply table_index.
Qed.

Lemma X11_table_rows_are_the_years_in_range_witness :
  let t := round_table
             (table_df (filtered ["Inventory Turnover"; "Asset Turnover";
                                  "Trade Receivable Turnover"] 2021 2022 df)) in
  returns (update_charts "UltraTech Cement" "turnover" (2021, 2022)) module_globals
          (fun v => snd v = Pre (to_csv t))
  /\ index t = labels_in_range 2021 2022.
Proof.
  apply (X11_table_rows_are_the_years_in_range
           "UltraTech Cement" "turnover"
           ["Inventory Turnover"; "Asset Turnover"; "Trade Receivable Turnover"]
           2021 2022).
  vm_compute. reflexivity.
Defined.

(** ** The catalogs and the dataset *)

Lemma catalog_metric_cases (group metric : string) (metrics : list string) :
  metric_groups !! group = Some metrics -> In metric metrics ->
  In metric (List.map fst ambuja).
Proof.
  intros Hgroup Hmetric. apply metric_groups_inv in Hgroup.
  destruct Hgroup as [[_ ->] | [[_ ->] | [[_ ->] | [_ ->]]]];
    repeat (destruct Hmetric as [<- | Hmetric]; [cbn; tauto |]);
    destruct Hmetric.
Qed.

(** X12: the catalogs and the dataset agree. Every metric of every
    catalog group has a colour in [metric_colors] and a text in
    [insights], and for each of the two companies the dataset holds one
    record of it per year of [year_numbers], so its KPI value is never the
    absent marker; the two company tables list the same metrics in the
    same order, and every metric of the tables belongs to a catalog group.
    Hence no fallback (black, "No insight available.", "—") is reached for
    a catalog group and one of the two companies. *)
Theorem X12_catalogs_cover_the_metrics :
  (forall group metrics metric,
      metric_groups !! group = Some metrics -> In metric metrics ->
      is_Some (metric_colors !! metric)
      /\ is_Some (insights !! metric)
      /\ forall comp, In comp both_companies ->
            List.map Year (series_rows df comp metric) = year_numbers
            /\ value_label (kpi_latest df comp metric) <> "—")
  /\ List.map fst ambuja = List.map fst ultratech
  /\ (forall metric, In metric (List.map fst ambuja) ->
         exists group metrics,
           metric_groups !! group = Some metrics /\ In metric metrics).
Proof.
  split; [| split].
  - intros group metrics metric Hgroup Hmetric.
    pose proof (catalog_metric_cases _ _ _ Hgroup Hmetric) as Hcases.
    split; [| split].
    + cbn in Hcases.
      repeat (destruct Hcases as [<- | Hcases];
              [apply (bool_decide_unpack _); vm_compute; exact I |]).
      destruct Hcases.
    + cbn in Hcases.
      repeat (destruct Hcases as [<- | Hcases];
              [apply (bool_decide_unpack _); vm_compute; exact I |]).
      destruct Hcases.
    + intros comp Hcomp.
      pose proof (series_years_of_df comp metric group metrics Hcomp Hgroup Hmetric)
        as Hyears.
      assert (Hy : List.map Year (series_rows df comp metric) = year_numbers).
      { apply (f_equal (List.map fst)) in Hyears.
        rewrite List.map_map in Hyears. exact Hyears. }
      split; [exact Hy |].
      intros Hmarker.
      pose proof (proj1 (value_label_marker_iff df comp metric) Hmarker) as Hnone.
      destruct (series_rows df comp metric) as [| r s] eqn:E; [discriminate Hy |].
      assert (Hr : In r (series_rows df comp metric)) by (rewrite E; left; reflexivity).
      apply In_series_rows in Hr as (Hr & Hc & Hm).
      exact (Hnone r Hr Hc Hm).
  - reflexivity.
  - intros metric Hmetric. cbn in Hmetric.
    destruct Hmetric as [<- | [<- | Hmetric]];
      [exists "liquidity", ["Current Ratio"; "Quick Ratio"];
       split; [vm_compute; reflexivity | cbn; tauto] .. |].
    destruct Hmetric as [<- | [<- | Hmetric]];
      [exists "profitability", ["Gross Profit Margin"; "Net Profit Margin"];
       split; [vm_compute; reflexivity | cbn; tauto] .. |].
    destruct Hmetric as [<- | Hmetric];
      [exists "leverage", ["Interest Coverage Ratio"];
       split; [vm_compute; reflexivity | cbn; tauto] |].
    destruct Hmetric as [<- | [<- | [<- | []]]];
      exists "turnover", ["Inventory Turnover"; "Asset Turnover";
                          "Trade Receivable Turnover"];
      (split; [vm_compute; reflexivity | cbn; tauto]).
Qed.

(** ** The controls and the callbacks *)

Lemma year_range_slider :
  year_range
  = Some (mkRangeSlider "year-range" 2021 2025 (2021, 2025)
            (list_to_map (List.map (fun y => (y, py_str y)) year_numbers))
            None).
Proof. reflexivity. Qed.

Lemma marks_are_the_years (y : Z) :
  is_Some ((list_to_map (List.map (fun y => (y, py_str y)) year_numbers)
            : gmap Z string) !! y)
  <-> In y year_numbers.
Proof.
  split.
  - intros [label H]. apply elem_of_list_to_map_2 in H.
    unfold year_numbers in *. cbn [List.map] in H.
    repeat (apply elem_of_cons in H as [H | H];
            [injection H as -> _; cbn; tauto |]).
    apply elem_of_nil in H. destruct H.
  - unfold year_numbers. intros H.
    repeat (destruct H as [<- | H];
            [apply (bool_decide_unpack _); vm_compute; exact I |]).
    destruct H.
Qed.

Lemma group_options_are_the_catalog_keys (g : string) :
  In g (List.map opt_value (dd_options metric_group))
  <-> is_Some (metric_groups !! g).
Proof.
  split.
  - cbn. intros H.
    repeat (destruct H as [<- | H];
            [apply (bool_decide_unpack _); vm_compute; exact I |]).
    destruct H.
  - intros [metrics H]. apply metric_groups_inv in H.
    destruct H as [[-> _] | [[-> _] | [[-> _] | [-> _]]]]; cbn; tauto.
Qed.

Lemma years_of_df (y : Z) :
  In y year_numbers <-> exists r, In r df /\ Year r = y.
Proof.
  split.
  - intros H.
    assert (Hb : existsb (fun r => Year r =? y) df = true).
    { unfold year_numbers in H.
      repeat (destruct H as [<- | H]; [vm_compute; reflexivity |]).
      destruct H. }
    apply existsb_exists in Hb as (r & Hr & E). apply Z.eqb_eq in E. eauto.
  - intros (r & Hr & <-). apply df_labels in Hr.
    apply in_combine_l in Hr. exact Hr.
Qed.

(** X13: the controls of the layout offer exactly what the callbacks
    accept. The option values of the group dropdown are the keys of
    [metric_groups]; the slider runs from 2021 to 2025, starts on the full
    range, and its marks are exactly the years of [year_numbers], which
    are exactly the years that occur in the dataset; the selection the
    page starts with (Both, liquidity, full range) is among the offered
    ones; and on every offered selection both callbacks return. *)
Theorem X13_controls_offer_what_the_callbacks_accept :
  (forall g, In g (List.map opt_value (dd_options metric_group))
             <-> is_Some (metric_groups !! g))
  /\ (exists slider,
         year_range = Some slider
         /\ rs_min slider = 2021 /\ rs_max slider = 2025
         /\ rs_value slider = (2021, 2025) /\ rs_step slider = None
         /\ (forall y, is_Some (rs_marks slider !! y) <-> In y year_numbers)
         /\ (forall y, In y year_numbers <-> exists r, In r df /\ Year r = y))
  /\ offered (mkSelection (dd_value company_select) (dd_value metric_group)
                          (2021, 2025))
  /\ (forall sel, offered sel ->
         (exists v, kpi_projection sel module_globals = (Return v, module_globals))
         /\ (exists v, chart_projection sel module_globals
                       = (Return v, module_globals))).
Proof.
  split; [exact group_options_are_the_catalog_keys |]. split; [| split].
  - eexists. split; [exact year_range_slider |]. cbn [rs_min rs_max rs_value rs_step rs_marks].
    repeat (split; [reflexivity |]).
    split; [exact marks_are_the_years | exact years_of_df].
  - split; [cbn; tauto |]. split; [cbn; tauto |].
    eexists. split; [exact year_range_slider |].
    cbn [rs_marks sel_year_range fst snd].
    split; apply marks_are_the_years; cbn; tauto.
  - intros [company group [yr_min yr_max]] (_ & Hgroup & _).
    cbn [sel_group] in Hgroup.
    apply group_options_are_the_catalog_keys in Hgroup as [metrics Hgroup].
    unfold kpi_projection, chart_projection.
    cbn [sel_company sel_group sel_year_range]. split.
    + destruct (returns_update_kpis_and_insights company group module_globals)
        as (v & Hv & _).
      exists v. exact Hv.
    + destruct (metric_groups_nonempty _ _ Hgroup) as (primary & rest & ->).
      destruct (returns_update_charts company group primary rest yr_min yr_max
                  module_globals Hgroup) as (v & Hv & _).
      exists v. exact Hv.
Qed.
